(** * fetch_news.py: the health-news fetcher and its static fallback

    A shallow embedding of [src/fetch_news.py].  The script reads the
    [NEWS_API_KEY] environment variable, asks newsapi.org for the top health
    headlines, keeps the first five articles and attaches a daily tip; every
    failure is replaced by a hardcoded bundle.  Run as a program, it dumps
    the bundle to [data/daily_news.json].

    Python values are embedded as the inductive [pyval]; the effects of the
    script (standard output, HTTP requests, reads of the wall clock, raised
    exceptions) are threaded through a small state-and-exception monad; the
    main block runs in the same monad over a state that also has the files
    written.

    The functions are embedded over a [platform], which says what [print]
    raises on a line, which exception the slice of a dict raises, and which
    requests never come back; [fetch_health_news] and [main] are the
    functions on the platform [plain], where every line is taken and every
    request comes back. *)

From Stdlib Require Import String Ascii.
From stdpp Require Import gmap list.

Set Warnings "-register-all".

(** ** Python data *)

(** A Python [str] is a sequence of Unicode code points. *)
Definition str := list N.

(** The literals of the source file are UTF-8 text; [u] decodes one into
    its code points, so that [u "ok"] is the Python string ['ok']. *)
Fixpoint utf8_go (need : nat) (acc : N) (bs : list N) : str :=
  match bs with
  | [] => []
  | b :: bs' =>
      match need with
      | O =>
          if (b <? 128)%N then b :: utf8_go 0 0%N bs'
          else if (b <? 224)%N then utf8_go 1 (N.land b 31) bs'
          else if (b <? 240)%N then utf8_go 2 (N.land b 15) bs'
          else utf8_go 3 (N.land b 7) bs'
      | S k =>
          let acc' := (acc * 64 + N.land b 63)%N in
          match k with
          | O => acc' :: utf8_go 0 0%N bs'
          | _ => utf8_go k acc' bs'
          end
      end
  end.

Fixpoint bytes_of (s : string) : list N :=
  match s with
  | EmptyString => []
  | String a s' => N_of_ascii a :: bytes_of s'
  end.

Definition u (s : string) : str := utf8_go 0 0%N (bytes_of s).

(** What [json.loads] can produce, and what the dict literals of the script
    build: [None], booleans, integers, floats (as their 64 bits), strings,
    lists and string-keyed dicts. *)
Inductive pyval :=
| PNone
| PBool (b : bool)
| PInt (z : Z)
| PFloat (bits : N)
| PStr (s : str)
| PList (l : list pyval)
| PDict (d : gmap str pyval).

(** [v == s] for a string literal [s]: only an equal [str] compares equal. *)
Definition py_eq_str (v : pyval) (s : str) : bool :=
  match v with
  | PStr t => bool_decide (t = s)
  | _ => false
  end.

(** [len(v)], defined on the sized values only. *)
Definition py_len (v : pyval) : option nat :=
  match v with
  | PStr s => Some (length s)
  | PList l => Some (length l)
  | PDict d => Some (size d)
  | _ => None
  end.

(** ** Exceptions, output and the monad of effects *)

(** The exceptions the script can meet.  All of them are subclasses of
    [Exception]. *)
Inductive exc :=
| AttributeError            (* [.get] on a value that is not a dict *)
| TypeError                 (* [[:5]] on a value that cannot be sliced *)
| KeyError                  (* [[:5]] on a dict, from Python 3.12 *)
| LibraryError (name : str) (* raised inside a library call; [name] is
                               what [str(e)] shows *).

(** One call of [print]: a fixed text, or an f-string with its one
    interpolated value. *)
Inductive line :=
| Plain (text : str)
| WithValue (prefix : str) (v : pyval)
| WithExc (prefix : str) (e : exc).

(** A response object, as far as the script looks at it: the outcome of
    its [json()] method. *)
Record response := { json : exc + pyval }.

(** What a run observes of its surroundings: the process environment, the
    successive readings of the local clock (already in ISO format), and the
    behaviour of [requests.get] at a URL. *)
Record world := {
  environ : gmap str str;
  clock : nat -> str;
  requests_get : str -> exc + response
}.

(** What a run leaves behind: the lines printed, the URLs requested, and
    how many times the clock was read. *)
Record state := {
  stdout : list line;
  requests_sent : list str;
  clock_reads : nat
}.

(** What the interpreter and the machine add to the world: the exception
    [print] raises on a line, if any ([UnicodeEncodeError] when the
    encoding of standard output cannot take the text, [OSError] when the
    stream is closed); whether a slice is hashable, as it is from Python
    3.12; and the URLs at which [requests.get], called without a timeout,
    never returns. *)
Record platform := {
  stdout_error : line -> option exc;
  slices_hashable : bool;
  never_answers : str -> bool
}.

(** A platform that takes every line and answers every request. *)
Definition plain : platform :=
  {| stdout_error := fun _ => None;
     slices_hashable := false;
     never_answers := fun _ => false |}.

(** A computation returns, raises, or never comes back. *)
Inductive result (A : Type) :=
| Ok (a : A)
| Raise (e : exc)
| Hang.
Arguments Ok {A} a.
Arguments Raise {A} e.
Arguments Hang {A}.

Definition M (A : Type) : Type := state -> result A * state.

#[global] Instance M_ret : MRet M := fun A a s => (Ok a, s).

#[global] Instance M_bind : MBind M := fun A B f m s =>
  match m s with
  | (Ok a, s') => f a s'
  | (Raise e, s') => (Raise e, s')
  | (Hang, s') => (Hang, s')
  end.

Definition raise {A} (e : exc) : M A := fun s => (Raise e, s).

(** [try: body  except Exception as e: handler e] *)
Definition try_except {A} (body : M A) (handler : exc -> M A) : M A :=
  fun s =>
    match body s with
    | (Ok a, s') => (Ok a, s')
    | (Raise e, s') => handler e s'
    | (Hang, s') => (Hang, s')
    end.

Definition of_outcome {A} (o : exc + A) : M A :=
  match o with
  | inl e => raise e
  | inr a => mret a
  end.

(** [print(l)]: the line is written, unless standard output refuses it. *)
Definition print (pf : platform) (l : line) : M unit := fun s =>
  match stdout_error pf l with
  | Some e => (Raise e, s)
  | None =>
      (Ok tt, {| stdout := stdout s ++ [l];
                 requests_sent := requests_sent s;
                 clock_reads := clock_reads s |})
  end.

(** [datetime.now().isoformat()] *)
Definition datetime_now_isoformat (w : world) : M str := fun s =>
  (Ok (clock w (clock_reads s)),
   {| stdout := stdout s;
      requests_sent := requests_sent s;
      clock_reads := S (clock_reads s) |}).

(** [requests.get(url)]: the request is issued; it is then answered or
    failed, or, no timeout being set, never comes back. *)
Definition do_requests_get (pf : platform) (w : world) (url : str) : M response :=
  fun s =>
    let s' := {| stdout := stdout s;
                 requests_sent := requests_sent s ++ [url];
                 clock_reads := clock_reads s |} in
    if never_answers pf url then (Hang, s')
    else of_outcome (requests_get w url) s'.

(** [response.json()] *)
Definition response_json (r : response) : M pyval := of_outcome (json r).

(** [data.get(key, default)] *)
Definition dict_get (data : pyval) (key : str) (dflt : pyval) : M pyval :=
  match data with
  | PDict d => mret (default dflt (d !! key))
  | _ => raise AttributeError
  end.

(** [v[:n]]: lists and strings are sliced, nothing else that JSON yields
    can be.  A dict takes the slice for a key: unhashable, it is a
    [TypeError]; hashable, as from Python 3.12, it is a key the dict does
    not have. *)
Definition slice_to (pf : platform) (n : nat) (v : pyval) : M pyval :=
  match v with
  | PList l => mret (PList (take n l))
  | PStr s => mret (PStr (take n s))
  | PDict _ => raise (if slices_hashable pf then KeyError else TypeError)
  | _ => raise TypeError
  end.

(** ** The script *)

(** The dict every path returns, with its three fixed keys. *)
Record NewsBundle := {
  updated_at : str;
  tip : str;
  articles : pyval
}.

(** [API_KEY = os.environ.get('NEWS_API_KEY')] *)
Definition API_KEY (w : world) : option str := environ w !! u "NEWS_API_KEY".

(** [not k] for [k] a string or [None]. *)
Definition py_not (k : option str) : bool :=
  match k with
  | None => true
  | Some [] => true
  | Some (_ :: _) => false
  end.

(** What [{API_KEY}] interpolates. *)
Definition format_key (k : option str) : str :=
  match k with
  | None => u "None"
  | Some key => key
  end.

Definition mk_article (title description url urlToImage : string) : pyval :=
  PDict (<[u "title" := PStr (u title)]>
        (<[u "description" := PStr (u description)]>
        (<[u "url" := PStr (u url)]>
        (<[u "urlToImage" := PStr (u urlToImage)]> ∅)))).

Definition generate_fallback_data (w : world) : M NewsBundle :=
  now ← datetime_now_isoformat w;
  mret {|
    updated_at := now;
    tip := u "نصيحة اليوم: شرب الماء بانتظام يساعد على تحسين التركيز والطاقة.";
    articles := PList [
      mk_article
        "فوائد الصيام المتقطع للصحة العقلية"
        "دراسات جديدة تؤكد دور الصيام في تحسين الوظائف الإدراكية."
        "#"
        "https://via.placeholder.com/300?text=Health";
      mk_article
        "أهمية النوم الجيد للمناعة"
        "النوم لمدة 7-8 ساعات يعزز جهاز المناعة بشكل كبير."
        "#"
        "https://via.placeholder.com/300?text=Sleep"
    ]
  |}.

Definition endpoint : str :=
  u "https://newsapi.org/v2/top-headlines?category=health&language=ar&apiKey=".

(** [fetch_health_news()] on the platform [pf]. *)
Definition fetch_health_news_on (pf : platform) (w : world) : M NewsBundle :=
  if py_not (API_KEY w) then
    print pf (Plain (u "No API Key found. Generating static fallback data."));;
    generate_fallback_data w
  else
    let url := endpoint ++ format_key (API_KEY w) in
    try_except
      (response ← do_requests_get pf w url;
       data ← response_json response;
       status ← dict_get data (u "status") PNone;
       if py_eq_str status (u "ok") then
         now ← datetime_now_isoformat w;
         found ← dict_get data (u "articles") (PList []);
         top ← slice_to pf 5 found;
         mret {|
           updated_at := now;
           tip := u "نصيحة اليوم: المشي لمدة 30 دقيقة يومياً يقلل من خطر الإصابة بأمراض القلب.";
           articles := top
         |}
       else
         print pf (WithValue (u "API Error: ") data);;
         generate_fallback_data w)
      (fun e =>
         print pf (WithExc (u "Error fetching news: ") e);;
         generate_fallback_data w).

(** The function where every line is taken and every request comes back. *)
Definition fetch_health_news (w : world) : M NewsBundle :=
  fetch_health_news_on plain w.

(** ** Vocabulary of the statements *)

Definition water_tip : str :=
  u "نصيحة اليوم: شرب الماء بانتظام يساعد على تحسين التركيز والطاقة.".

Definition walking_tip : str :=
  u "نصيحة اليوم: المشي لمدة 30 دقيقة يومياً يقلل من خطر الإصابة بأمراض القلب.".

(** The two hardcoded articles of the fallback bundle. *)
Definition fallback_articles : pyval :=
  PList [
    mk_article
      "فوائد الصيام المتقطع للصحة العقلية"
      "دراسات جديدة تؤكد دور الصيام في تحسين الوظائف الإدراكية."
      "#"
      "https://via.placeholder.com/300?text=Health";
    mk_article
      "أهمية النوم الجيد للمناعة"
      "النوم لمدة 7-8 ساعات يعزز جهاز المناعة بشكل كبير."
      "#"
      "https://via.placeholder.com/300?text=Sleep"
  ].

(** The URL requested when the key is [key]. *)
Definition url_for (key : str) : str := endpoint ++ key.

(** The state once [l] has been printed, once [url] has been requested,
    and once the clock has been read. *)
Definition printed (l : line) (s : state) : state :=
  {| stdout := stdout s ++ [l];
     requests_sent := requests_sent s;
     clock_reads := clock_reads s |}.

Definition requested (url : str) (s : state) : state :=
  {| stdout := stdout s;
     requests_sent := requests_sent s ++ [url];
     clock_reads := clock_reads s |}.

Definition ticked (s : state) : state :=
  {| stdout := stdout s;
     requests_sent := requests_sent s;
     clock_reads := S (clock_reads s) |}.

(** The value a computation returns from a state. *)
Definition value {A} (m : M A) (s : state) : result A := fst (m s).

(** A string-valued member of an article. *)
Definition member (a : pyval) (key : string) : option str :=
  match a with
  | PDict d =>
      match d !! u key with
      | Some (PStr t) => Some t
      | _ => None
      end
  | _ => None
  end.

(** All four members of an article are present and non-empty strings. *)
Definition fully_populated (a : pyval) : bool :=
  forallb
    (fun key => match member a key with Some (_ :: _) => true | _ => false end)
    ["title"; "description"; "url"; "urlToImage"]%string.

(** [t.startswith(p)] *)
Definition starts_with (p t : str) : bool := bool_decide (take (length p) t = p).

(** The image of an article is served by the placeholder site. *)
Definition placeholder_image (a : pyval) : bool :=
  match member a "urlToImage" with
  | Some img => starts_with (u "https://via.placeholder.com/") img
  | None => false
  end.

(** [v[:5]] where it is defined. *)
Definition top_five (v : pyval) : option pyval :=
  match v with
  | PList l => Some (PList (take 5 l))
  | PStr t => Some (PStr (take 5 t))
  | _ => None
  end.

(** The values [[:5]] accepts. *)
Definition sliceable (v : pyval) : bool :=
  match v with
  | PList _ | PStr _ => true
  | _ => false
  end.

(** Two bundles that agree everywhere but, possibly, in [updated_at]. *)
Definition same_but_updated_at (b1 b2 : NewsBundle) : Prop :=
  tip b1 = tip b2 /\ articles b1 = articles b2.

(** The exception [v[:5]] raises when [v] cannot be sliced. *)
Definition slice_error (pf : platform) (v : pyval) : exc :=
  match v with
  | PDict _ => if slices_hashable pf then KeyError else TypeError
  | _ => TypeError
  end.

(** What the handler of the [try] block does with the exception [e]. *)
Definition on_error (pf : platform) (w : world) (e : exc) : M NewsBundle :=
  print pf (WithExc (u "Error fetching news: ") e);;
  generate_fallback_data w.

(** What the [try] block does once the response is parsed. *)
Definition after_parse_on (pf : platform) (w : world) (data : pyval)
  : M NewsBundle :=
  try_except
    (status ← dict_get data (u "status") PNone;
     if py_eq_str status (u "ok") then
       now ← datetime_now_isoformat w;
       found ← dict_get data (u "articles") (PList []);
       top ← slice_to pf 5 found;
       mret {| updated_at := now; tip := walking_tip; articles := top |}
     else
       print pf (WithValue (u "API Error: ") data);;
       generate_fallback_data w)
    (on_error pf w).

Definition after_parse (w : world) (data : pyval) : M NewsBundle :=
  after_parse_on plain w data.

(** ** Sample runs *)

Definition fresh : state :=
  {| stdout := []; requests_sent := []; clock_reads := 0 |}.

Definition sample_clock (n : nat) : str :=
  u "2026-01-01T06:00:0" ++ [(48 + N.of_nat n)%N].

Definition headline (n : Z) : pyval :=
  PDict (<[u "title" := PStr (u "headline")]> (<[u "rank" := PInt n]> ∅)).

Definition seven_headlines : list pyval :=
  [headline 1; headline 2; headline 3; headline 4;
   headline 5; headline 6; headline 7].

Definition answering (body : exc + pyval) : str -> exc + response :=
  fun _ => inr {| json := body |}.

Definition keyed (get : str -> exc + response) : world :=
  {| environ := {[ u "NEWS_API_KEY" := u "k3y" ]};
     clock := sample_clock;
     requests_get := get |}.

Definition unkeyed (c : nat -> str) : world :=
  {| environ := ∅;
     clock := c;
     requests_get := fun _ => inl (LibraryError (u "ConnectionError")) |}.

Definition empty_keyed : world :=
  {| environ := {[ u "NEWS_API_KEY" := [] ]};
     clock := sample_clock;
     requests_get := answering (inr (PDict {[ u "status" := PStr (u "ok") ]})) |}.

Definition ok_body (found : pyval) : pyval :=
  PDict (<[u "status" := PStr (u "ok")]> (<[u "articles" := found]> ∅)).

Definition seven_world : world :=
  keyed (answering (inr (ok_body (PList seven_headlines)))).

Definition null_articles_world : world :=
  keyed (answering (inr (ok_body PNone))).

Definition error_status_world : world :=
  keyed (answering (inr (PDict {[ u "status" := PStr (u "error") ]}))).

Definition no_status_world : world :=
  keyed (answering (inr (PDict {[ u "message" := PStr (u "rate limited") ]}))).

Definition unreachable_world : world :=
  keyed (fun _ => inl (LibraryError (u "ConnectionError"))).

Definition garbled_world : world :=
  keyed (answering (inl (LibraryError (u "JSONDecodeError")))).

Definition bare_ok_world : world :=
  keyed (answering (inr (PDict {[ u "status" := PStr (u "ok") ]}))).

Definition array_body_world : world :=
  keyed (answering (inr (PList [headline 1]))).

(** ** The main block *)

(** [OUTPUT_FILE = 'data/daily_news.json'] *)
Definition OUTPUT_FILE : str := u "data/daily_news.json".

Fixpoint drop_while {A} (f : A -> bool) (l : list A) : list A :=
  match l with
  | [] => []
  | x :: l' => if f x then drop_while f l' else l
  end.

(** [os.path.dirname(p)]: everything up to the last slash, the trailing
    slashes of that head removed unless it is made of slashes only. *)
Definition os_path_dirname (p : str) : str :=
  let head := rev (drop_while (fun c => negb (c =? 47)%N) (rev p)) in
  if forallb (fun c => (c =? 47)%N) head then head
  else rev (drop_while (fun c => (c =? 47)%N) (rev head)).

(** The file system, as far as the main block meets it: whether
    [os.makedirs(path, exist_ok=True)] and [open(path, 'w',
    encoding='utf-8')] raise, and whether [json.dump(bundle, f,
    ensure_ascii=False, indent=2)], or the closing of [f] after it, does. *)
Record filesystem := {
  os_makedirs : str -> option exc;
  open_w : str -> option exc;
  json_dump : NewsBundle -> option exc
}.

(** What a file holds after the script touched it: the complete JSON text
    of a bundle, or what an interrupted write left of a file opened with
    mode ['w']. *)
Inductive content :=
| Dumped (b : NewsBundle)
| Truncated.

(** The state of the whole process: that of [fetch_health_news], the files
    written and the directories made sure of.  A file is known by the name
    it was opened with; the other names the file system may have for it
    (a relative prefix, a link) are not followed. *)
Record process := {
  console : state;
  files : gmap str content;
  dirs_ensured : list str
}.

Definition P (A : Type) : Type := process -> result A * process.

#[global] Instance P_ret : MRet P := fun A a p => (Ok a, p).

#[global] Instance P_bind : MBind P := fun A B f m p =>
  match m p with
  | (Ok a, p') => f a p'
  | (Raise e, p') => (Raise e, p')
  | (Hang, p') => (Hang, p')
  end.

(** A computation of the console run inside the process. *)
Definition in_console {A} (m : M A) : P A := fun p =>
  match m (console p) with
  | (r, s') =>
      (r, {| console := s'; files := files p; dirs_ensured := dirs_ensured p |})
  end.

(** [os.makedirs(path, exist_ok=True)] *)
Definition do_makedirs (fs : filesystem) (path : str) : P unit := fun p =>
  match os_makedirs fs path with
  | Some e => (Raise e, p)
  | None =>
      (Ok tt, {| console := console p;
                 files := files p;
                 dirs_ensured := dirs_ensured p ++ [path] |})
  end.

(** [with open(path, 'w', encoding='utf-8') as f: json.dump(b, f, ...)]:
    opening truncates the file, the dump then fills it. *)
Definition write_json (fs : filesystem) (path : str) (b : NewsBundle) : P unit :=
  fun p =>
    match open_w fs path with
    | Some e => (Raise e, p)
    | None =>
        match json_dump fs b with
        | Some e =>
            (Raise e, {| console := console p;
                         files := <[path := Truncated]> (files p);
                         dirs_ensured := dirs_ensured p |})
        | None =>
            (Ok tt, {| console := console p;
                       files := <[path := Dumped b]> (files p);
                       dirs_ensured := dirs_ensured p |})
        end
    end.

(** The body of [if __name__ == "__main__":] on the platform [pf]. *)
Definition main_on (pf : platform) (w : world) (fs : filesystem) : P unit :=
  news_data ← in_console (fetch_health_news_on pf w);
  do_makedirs fs (os_path_dirname OUTPUT_FILE);;
  write_json fs OUTPUT_FILE news_data;;
  in_console (print pf (Plain (u "Successfully updated " ++ OUTPUT_FILE))).

(** The block where every line is taken and every request comes back. *)
Definition main (w : world) (fs : filesystem) : P unit := main_on plain w fs.

(** The line the script ends on. *)
Definition success_line : line :=
  Plain (u "Successfully updated data/daily_news.json").

(** The lines [fetch_health_news] can print. *)
Definition diagnostic (l : line) : bool :=
  match l with
  | Plain t =>
      bool_decide (t = u "No API Key found. Generating static fallback data.")
  | WithValue t _ => bool_decide (t = u "API Error: ")
  | WithExc t _ => bool_decide (t = u "Error fetching news: ")
  end.

(** The URLs a run of the world [w] requests. *)
Definition urls_of (w : world) : list str :=
  if py_not (API_KEY w) then [] else [endpoint ++ format_key (API_KEY w)].

(** The process with another console state, with one more directory made
    sure of, and with new content in the output file. *)
Definition with_console (s : state) (p : process) : process :=
  {| console := s; files := files p; dirs_ensured := dirs_ensured p |}.

Definition ensured (dir : str) (p : process) : process :=
  {| console := console p;
     files := files p;
     dirs_ensured := dirs_ensured p ++ [dir] |}.

Definition holding (c : content) (p : process) : process :=
  {| console := console p;
     files := <[OUTPUT_FILE := c]> (files p);
     dirs_ensured := dirs_ensured p |}.

Definition boot : process :=
  {| console := fresh; files := ∅; dirs_ensured := [] |}.

Definition sound_fs : filesystem :=
  {| os_makedirs := fun _ => None;
     open_w := fun _ => None;
     json_dump := fun _ => None |}.

Definition readonly_fs : filesystem :=
  {| os_makedirs := fun _ => Some (LibraryError (u "PermissionError"));
     open_w := fun _ => Some (LibraryError (u "PermissionError"));
     json_dump := fun _ => None |}.

Definition full_disk_fs : filesystem :=
  {| os_makedirs := fun _ => None;
     open_w := fun _ => None;
     json_dump := fun _ => Some (LibraryError (u "OSError")) |}.

(** ** Platforms and endings *)

(** A state in which the request of the run, if it makes one, is on
    record and nothing else has happened since [s]. *)
Definition at_request (w : world) (s s0 : state) : Prop :=
  stdout s0 = stdout s /\
  requests_sent s0 = requests_sent s ++ urls_of w /\
  clock_reads s0 = clock_reads s.

(** The one [print] that sits inside the [try] block is that of the
    upstream error report. *)
Definition in_try (l : line) : bool :=
  match l with
  | WithValue _ _ => true
  | _ => false
  end.

(** The ways a run of [fetch_health_news] from [s] can end: with the
    fallback bundle after one diagnostic, the clock read before it or not;
    with the live bundle; with an exception that a [print] outside the
    [try] raised; or never, on a request that does not come back. *)
Inductive ending (pf : platform) (w : world) (s : state)
  : result NewsBundle * state -> Prop :=
| Fallback l s0 :
    diagnostic l = true ->
    stdout_error pf l = None ->
    at_request w s s0 ->
    ending pf w s (generate_fallback_data w (printed l s0))
| LateFallback l s0 :
    diagnostic l = true ->
    stdout_error pf l = None ->
    at_request w s s0 ->
    ending pf w s (generate_fallback_data w (printed l (ticked s0)))
| Live b s0 found top :
    tip b = walking_tip ->
    updated_at b = clock w (clock_reads s) ->
    top_five found = Some top ->
    articles b = top ->
    at_request w s s0 ->
    ending pf w s (Ok b, ticked s0)
| Escaped l e s0 :
    diagnostic l = true ->
    in_try l = false ->
    stdout_error pf l = Some e ->
    at_request w s s0 ->
    ending pf w s (Raise e, s0)
| LateEscaped l e s0 :
    diagnostic l = true ->
    in_try l = false ->
    stdout_error pf l = Some e ->
    at_request w s s0 ->
    ending pf w s (Raise e, ticked s0)
| Stalled s0 :
    at_request w s s0 ->
    ending pf w s (Hang, s0).

(** [t] holds ASCII only; so does what [print] shows of [v], of [e], of
    the line [l]. *)
Definition ascii (t : str) : bool := forallb (fun c => (c <? 128)%N) t.

Fixpoint value_ascii (v : pyval) : bool :=
  match v with
  | PStr t => ascii t
  | PList l => forallb value_ascii l
  | PDict d => map_fold (fun k x acc => ascii k && value_ascii x && acc) true d
  | _ => true
  end.

Definition exc_ascii (e : exc) : bool :=
  match e with
  | LibraryError name => ascii name
  | _ => true
  end.

Definition line_ascii (l : line) : bool :=
  match l with
  | Plain t => ascii t
  | WithValue t v => ascii t && value_ascii v
  | WithExc t e => ascii t && exc_ascii e
  end.

(** A standard output whose encoding is ASCII. *)
Definition ascii_stdout : platform :=
  {| stdout_error := fun l =>
       if line_ascii l then None
       else Some (LibraryError (u "UnicodeEncodeError"));
     slices_hashable := false;
     never_answers := fun _ => false |}.

(** Python 3.12. *)
Definition py312 : platform :=
  {| stdout_error := fun _ => None;
     slices_hashable := true;
     never_answers := fun _ => false |}.

(** A failure whose message is not ASCII. *)
Definition localized_error_world : world :=
  keyed (fun _ => inl (LibraryError (u "تعذر الاتصال بالخادم"))).

(** An error report from upstream whose message is not ASCII. *)
Definition arabic_error_world : world :=
  keyed (answering (inr (PDict (<[u "status" := PStr (u "error")]>
                               (<[u "message" := PStr (u "المفتاح غير صالح")]> ∅))))).

Definition dict_articles_world : world :=
  keyed (answering (inr (ok_body (PDict ∅)))).

(** [json.load] over the output file.  The dump of a bundle loads back as
    that bundle; a file cut short is no JSON document, and a file that
    was never written cannot be opened. *)
Definition read_back (p : process) : exc + NewsBundle :=
  match files p !! OUTPUT_FILE with
  | Some (Dumped b) => inr b
  | Some Truncated => inl (LibraryError (u "JSONDecodeError"))
  | None => inl (LibraryError (u "FileNotFoundError"))
  end.

(** ** Running the monad *)

#[local] Arguments u : simpl never.

Ltac run_script :=
  unfold value, fetch_health_news, fetch_health_news_on, generate_fallback_data,
    try_except, do_requests_get, response_json, of_outcome, dict_get, slice_to,
    print, datetime_now_isoformat, raise, mbind, M_bind, mret, M_ret;
  cbn [fst snd stdout requests_sent clock_reads updated_at tip articles
       plain stdout_error slices_hashable never_answers].

(** The fallback generator never raises; it reads the clock once and
    touches nothing else. *)
Lemma generate_fallback_data_total w s :
  exists b,
    generate_fallback_data w s = (Ok b, ticked s) /\
    updated_at b = clock w (clock_reads s).
Proof. run_script. eexists. split; reflexivity. Qed.

Lemma generate_fallback_data_run w s :
  exists b,
    generate_fallback_data w s = (Ok b, ticked s) /\
    tip b = water_tip /\
    articles b = fallback_articles.
Proof.
  run_script. unfold water_tip, fallback_articles.
  eexists. split; [reflexivity|]. cbn [tip articles]. split; reflexivity.
Qed.

(** Its value depends on the state through the clock reading alone. *)
Lemma generate_fallback_data_reading w s s' :
  clock_reads s = clock_reads s' ->
  value (generate_fallback_data w) s = value (generate_fallback_data w) s'.
Proof. intros Hr. run_script. now rewrite Hr. Qed.

(** Apart from [updated_at] its value is one fixed bundle. *)
Lemma generate_fallback_data_fixed w s w' s' b b' :
  value (generate_fallback_data w) s = Ok b ->
  value (generate_fallback_data w') s' = Ok b' ->
  same_but_updated_at b b'.
Proof.
  run_script. intros Hb Hb'.
  injection Hb as <-. injection Hb' as <-.
  split; cbn [tip articles]; reflexivity.
Qed.

(** With no usable key the script prints its notice and hands over to the
    fallback generator. *)
Lemma fetch_without_key w s :
  py_not (API_KEY w) = true ->
  fetch_health_news w s =
  generate_fallback_data w
    (printed (Plain (u "No API Key found. Generating static fallback data.")) s).
Proof.
  intros Hk. unfold fetch_health_news, fetch_health_news_on. rewrite Hk.
  unfold mbind, M_bind, print, printed. cbn [plain stdout_error]. reflexivity.
Qed.

(** ** The fallback bundle *)

(** C6: [generate_fallback_data] cannot fail, from any state of any world;
    the bundle it returns carries the water-intake tip and exactly two
    articles, both fully populated, both with url ["#"] and an image on the
    placeholder site, the first one titled
    "فوائد الصيام المتقطع للصحة العقلية". *)
Theorem generate_fallback_data_contents w s :
  exists b first second,
    value (generate_fallback_data w) s = Ok b /\
    tip b = water_tip /\
    articles b = PList [first; second] /\
    py_len (articles b) = Some 2 /\
    (fully_populated first && fully_populated second = true) /\
    member first "url" = Some (u "#") /\
    member second "url" = Some (u "#") /\
    (placeholder_image first && placeholder_image second = true) /\
    member first "title" = Some (u "فوائد الصيام المتقطع للصحة العقلية").
Proof.
  run_script. unfold water_tip. eexists _, _, _.
  split; [reflexivity|]. cbn [tip articles].
  split; [reflexivity|].
  split; [reflexivity|].
  split; [reflexivity|].
  repeat split; vm_compute; reflexivity.
Qed.

(** ** Runs without a usable key *)

(** C5: when [NEWS_API_KEY] is absent from the environment, the bundle
    returned is the one [generate_fallback_data] produces, and the run
    sends no HTTP request: it only prints its notice. *)
Theorem absent_key_fallback_without_request w s :
  API_KEY w = None ->
  exists b,
    value (fetch_health_news w) s = Ok b /\
    value (generate_fallback_data w) s = Ok b /\
    requests_sent (snd (fetch_health_news w s)) = requests_sent s /\
    stdout (snd (fetch_health_news w s)) =
    stdout s ++ [Plain (u "No API Key found. Generating static fallback data.")].
Proof.
  intros Hk.
  assert (Hnot : py_not (API_KEY w) = true) by now rewrite Hk.
  unfold value at 1. rewrite (fetch_without_key w s Hnot).
  set (s1 := printed _ s).
  destruct (generate_fallback_data_total w s1) as (b & Hrun & _).
  exists b. rewrite Hrun. cbn [fst snd].
  split; [reflexivity|]. split.
  - rewrite (generate_fallback_data_reading w s s1) by reflexivity.
    unfold value. now rewrite Hrun.
  - split; reflexivity.
Qed.

Lemma absent_key_fallback_without_request_witness :
  API_KEY (unkeyed sample_clock) = None /\
  exists b,
    value (fetch_health_news (unkeyed sample_clock)) fresh = Ok b /\
    requests_sent (snd (fetch_health_news (unkeyed sample_clock) fresh)) = [].
Proof.
  assert (Hk : API_KEY (unkeyed sample_clock) = None) by reflexivity.
  split; [exact Hk|].
  destruct (absent_key_fallback_without_request _ fresh Hk)
    as (b & Hb & _ & Hreq & _).
  exists b. split; [exact Hb | exact Hreq].
Defined.

(** C10: a [NEWS_API_KEY] set to the empty string is treated like an
    absent one.  The run is the same, effect for effect, as the run of a
    world without the variable (and with the same clock): the fallback
    bundle is returned and no HTTP request is sent. *)
Theorem empty_key_like_absent w w' s :
  API_KEY w = Some [] ->
  API_KEY w' = None ->
  (forall n, clock w n = clock w' n) ->
  fetch_health_news w s = fetch_health_news w' s /\
  (exists b,
     value (fetch_health_news w) s = Ok b /\
     value (generate_fallback_data w) s = Ok b) /\
  requests_sent (snd (fetch_health_news w s)) = requests_sent s.
Proof.
  intros Hk Hk' Hclock.
  assert (Hnot : py_not (API_KEY w) = true) by now rewrite Hk.
  assert (Hnot' : py_not (API_KEY w') = true) by now rewrite Hk'.
  unfold value at 1.
  rewrite (fetch_without_key w s Hnot), (fetch_without_key w' s Hnot').
  set (s1 := printed _ s).
  destruct (generate_fallback_data_total w s1) as (b & Hrun & _).
  split; [|split].
  - run_script. now rewrite Hclock.
  - exists b. rewrite Hrun. split; [reflexivity|].
    rewrite (generate_fallback_data_reading w s s1) by reflexivity.
    unfold value. now rewrite Hrun.
  - now rewrite Hrun.
Qed.

Lemma empty_key_like_absent_witness :
  API_KEY empty_keyed = Some [] /\
  fetch_health_news empty_keyed fresh =
  fetch_health_news (unkeyed sample_clock) fresh /\
  requests_sent (snd (fetch_health_news empty_keyed fresh)) = [].
Proof.
  assert (Hk : API_KEY empty_keyed = Some []) by (vm_compute; reflexivity).
  assert (Hk' : API_KEY (unkeyed sample_clock) = None) by reflexivity.
  split; [exact Hk|].
  destruct (empty_key_like_absent empty_keyed (unkeyed sample_clock) fresh
              Hk Hk' (fun n => eq_refl)) as (Hsame & _ & Hreq).
  split; [exact Hsame | exact Hreq].
Defined.

(** C8: two runs without [NEWS_API_KEY], in whatever worlds and states,
    return bundles that agree in every field but, possibly, [updated_at];
    each has the water-intake tip and the two hardcoded articles of the
    fallback literal, so its [articles] has length exactly 2. *)
Theorem keyless_runs_agree w1 s1 w2 s2 :
  API_KEY w1 = None ->
  API_KEY w2 = None ->
  exists b1 b2,
    value (fetch_health_news w1) s1 = Ok b1 /\
    value (fetch_health_news w2) s2 = Ok b2 /\
    same_but_updated_at b1 b2 /\
    (tip b1 = water_tip /\ articles b1 = fallback_articles) /\
    (tip b2 = water_tip /\ articles b2 = fallback_articles) /\
    py_len (articles b1) = Some 2 /\
    py_len (articles b2) = Some 2.
Proof.
  intros Hk1 Hk2.
  assert (Hnot1 : py_not (API_KEY w1) = true) by now rewrite Hk1.
  assert (Hnot2 : py_not (API_KEY w2) = true) by now rewrite Hk2.
  unfold value.
  rewrite (fetch_without_key w1 s1 Hnot1), (fetch_without_key w2 s2 Hnot2).
  run_script. unfold same_but_updated_at, water_tip, fallback_articles.
  eexists _, _.
  split; [reflexivity|]. split; [reflexivity|].
  cbn [tip articles py_len length]. repeat split; reflexivity.
Qed.

Lemma keyless_runs_agree_witness :
  API_KEY (unkeyed sample_clock) = None /\
  API_KEY (unkeyed (fun _ => u "2026-01-02T06:00:00")) = None /\
  exists b1 b2,
    value (fetch_health_news (unkeyed sample_clock)) fresh = Ok b1 /\
    value (fetch_health_news (unkeyed (fun _ => u "2026-01-02T06:00:00")))
      (ticked fresh) = Ok b2 /\
    same_but_updated_at b1 b2.
Proof.
  split; [reflexivity|]. split; [reflexivity|].
  destruct (keyless_runs_agree
              (unkeyed sample_clock) fresh
              (unkeyed (fun _ => u "2026-01-02T06:00:00")) (ticked fresh)
              eq_refl eq_refl)
    as (b1 & b2 & H1 & H2 & Hsame & _).
  exists b1, b2. split; [exact H1|]. split; [exact H2|]. exact Hsame.
Defined.

(** ** Runs with a key *)

Lemma py_not_key (key : str) : key <> [] -> py_not (@Some str key) = false.
Proof. destruct key; [congruence | reflexivity]. Qed.

Lemma py_not_false_inv k :
  py_not k = false -> exists key, k = Some key /\ key <> [].
Proof.
  destruct k as [[|c k]|]; simpl; intros H; try discriminate.
  eexists. split; [reflexivity | discriminate].
Qed.

Lemma py_eq_str_true v t : py_eq_str v t = true <-> v = PStr t.
Proof.
  destruct v; simpl; try (split; [discriminate | congruence]).
  rewrite bool_decide_eq_true. split; congruence.
Qed.

Lemma py_eq_str_false v t : v <> PStr t -> py_eq_str v t = false.
Proof.
  intros Hv. destruct (py_eq_str v t) eqn:E; [|reflexivity].
  apply py_eq_str_true in E. contradiction.
Qed.

Lemma take_min_length {A} (n : nat) (l : list A) :
  take (min n (length l)) l = take n l.
Proof.
  destruct (Nat.le_gt_cases n (length l)) as [Hle | Hgt].
  - now rewrite Nat.min_l.
  - rewrite Nat.min_r by lia. rewrite firstn_all.
    symmetry. apply take_ge. lia.
Qed.

Lemma top_five_len v top :
  top_five v = Some top -> exists n, py_len top = Some n /\ n <= 5.
Proof.
  destruct v; simpl; intros [= <-]; simpl; eexists; (split; [reflexivity|]);
    rewrite length_take; lia.
Qed.

(** *** The [try] block after the parse *)

(** A parsed value that is no dict has no [get]: the handler takes over. *)
Lemma after_parse_not_dict w data s :
  (forall d, data <> PDict d) ->
  after_parse w data s =
  generate_fallback_data w
    (printed (WithExc (u "Error fetching news: ") AttributeError) s).
Proof.
  intros Hd.
  unfold after_parse, after_parse_on, on_error, try_except, mbind, M_bind,
    print, printed.
  cbn [plain stdout_error].
  destruct data; try reflexivity. now destruct (Hd d).
Qed.

(** A dict whose status is not ['ok'] is reported and replaced. *)
Lemma after_parse_not_ok w d s :
  d !! u "status" <> Some (PStr (u "ok")) ->
  after_parse w (PDict d) s =
  generate_fallback_data w
    (printed (WithValue (u "API Error: ") (PDict d)) s).
Proof.
  intros Hst.
  unfold after_parse, after_parse_on, try_except, mbind, M_bind, dict_get.
  unfold mret at 1. unfold M_ret at 1.
  rewrite py_eq_str_false.
  - unfold print, printed. cbn [plain stdout_error].
    cbn [stdout requests_sent clock_reads].
    destruct (generate_fallback_data_total w
                {| stdout := stdout s ++ [WithValue (u "API Error: ") (PDict d)];
                   requests_sent := requests_sent s;
                   clock_reads := clock_reads s |}) as (b & -> & _).
    reflexivity.
  - destruct (d !! u "status") as [v|]; cbn [default from_option id];
      congruence.
Qed.

(** A dict whose status is ['ok']: the clock is read, then the articles
    are looked up and sliced; a value that cannot be sliced sends the run
    to the handler, which reads the clock again. *)
Lemma after_parse_ok w d s :
  d !! u "status" = Some (PStr (u "ok")) ->
  after_parse w (PDict d) s =
  match default (PList []) (d !! u "articles") with
  | PList l =>
      (Ok {| updated_at := clock w (clock_reads s);
             tip := walking_tip;
             articles := PList (take 5 l) |}, ticked s)
  | PStr t =>
      (Ok {| updated_at := clock w (clock_reads s);
             tip := walking_tip;
             articles := PStr (take 5 t) |}, ticked s)
  | _ =>
      generate_fallback_data w
        (printed (WithExc (u "Error fetching news: ") TypeError) (ticked s))
  end.
Proof.
  intros Hst.
  unfold after_parse, after_parse_on, on_error, try_except, mbind, M_bind,
    dict_get.
  unfold mret at 1. unfold M_ret at 1.
  rewrite Hst. cbn [default from_option id].
  rewrite (proj2 (py_eq_str_true _ _) eq_refl).
  unfold datetime_now_isoformat, slice_to, raise, mret, M_ret, print,
    printed, ticked.
  cbn [plain stdout_error slices_hashable stdout requests_sent clock_reads].
  destruct (from_option id (PList []) (d !! u "articles")); reflexivity.
Qed.

(** *** On any platform *)

Lemma print_ok pf l s :
  stdout_error pf l = None -> print pf l s = (Ok tt, printed l s).
Proof. intros H. unfold print. now rewrite H. Qed.

Lemma print_raises pf l s e :
  stdout_error pf l = Some e -> print pf l s = (Raise e, s).
Proof. intros H. unfold print. now rewrite H. Qed.

(** The handler prints first, outside any [try]: what [print] raises there
    leaves the function. *)
Lemma on_error_run pf w e s :
  on_error pf w e s =
  match stdout_error pf (WithExc (u "Error fetching news: ") e) with
  | Some e' => (Raise e', s)
  | None =>
      generate_fallback_data w
        (printed (WithExc (u "Error fetching news: ") e) s)
  end.
Proof.
  unfold on_error, mbind, M_bind, print, printed.
  destruct (stdout_error pf (WithExc (u "Error fetching news: ") e));
    reflexivity.
Qed.

Lemma fetch_on_without_key pf w s :
  py_not (API_KEY w) = true ->
  fetch_health_news_on pf w s =
  match
    stdout_error pf
      (Plain (u "No API Key found. Generating static fallback data."))
  with
  | Some e => (Raise e, s)
  | None =>
      generate_fallback_data w
        (printed
           (Plain (u "No API Key found. Generating static fallback data.")) s)
  end.
Proof.
  intros Hk. unfold fetch_health_news_on. rewrite Hk.
  unfold mbind, M_bind, print, printed.
  destruct (stdout_error pf _); reflexivity.
Qed.

Lemma fetch_on_with_key pf w key s :
  API_KEY w = Some key ->
  key <> [] ->
  fetch_health_news_on pf w s =
  if never_answers pf (url_for key) then (Hang, requested (url_for key) s)
  else
    match requests_get w (url_for key) with
    | inl e => on_error pf w e (requested (url_for key) s)
    | inr r =>
        match json r with
        | inl e => on_error pf w e (requested (url_for key) s)
        | inr data => after_parse_on pf w data (requested (url_for key) s)
        end
    end.
Proof.
  intros Hk Hkey. unfold fetch_health_news_on.
  rewrite Hk, (py_not_key key Hkey). cbn [format_key]. unfold url_for.
  unfold after_parse_on, walking_tip, try_except, do_requests_get,
    response_json, of_outcome.
  unfold mbind at 1 2 3 4. unfold M_bind at 1 2 3 4. unfold requested.
  destruct (never_answers pf (endpoint ++ key)); [reflexivity|].
  destruct (requests_get w (endpoint ++ key)) as [e | r]; [reflexivity|].
  unfold mret at 1. unfold M_ret at 1.
  destruct (json r) as [e | data]; reflexivity.
Qed.

(** A parsed value that is no dict has no [get]. *)
Lemma after_parse_on_not_dict pf w data s :
  (forall d, data <> PDict d) ->
  after_parse_on pf w data s = on_error pf w AttributeError s.
Proof.
  intros Hd. unfold after_parse_on, try_except, mbind, M_bind.
  destruct data; try reflexivity. now destruct (Hd d).
Qed.

(** A dict whose status is not ['ok']: the report is printed inside the
    [try], so what [print] raises there is handled like the rest. *)
Lemma after_parse_on_not_ok pf w d s :
  d !! u "status" <> Some (PStr (u "ok")) ->
  after_parse_on pf w (PDict d) s =
  match stdout_error pf (WithValue (u "API Error: ") (PDict d)) with
  | Some e => on_error pf w e s
  | None =>
      generate_fallback_data w
        (printed (WithValue (u "API Error: ") (PDict d)) s)
  end.
Proof.
  intros Hst. unfold after_parse_on, try_except, mbind, M_bind, dict_get.
  unfold mret at 1. unfold M_ret at 1.
  rewrite py_eq_str_false.
  - unfold print, printed.
    destruct (stdout_error pf (WithValue (u "API Error: ") (PDict d)));
      [reflexivity|].
    destruct (generate_fallback_data_total w
                {| stdout := stdout s ++ [WithValue (u "API Error: ") (PDict d)];
                   requests_sent := requests_sent s;
                   clock_reads := clock_reads s |}) as (b & -> & _).
    reflexivity.
  - destruct (d !! u "status") as [v|]; cbn [default from_option id];
      congruence.
Qed.

(** A dict whose status is ['ok']. *)
Lemma after_parse_on_ok pf w d s :
  d !! u "status" = Some (PStr (u "ok")) ->
  after_parse_on pf w (PDict d) s =
  match default (PList []) (d !! u "articles") with
  | PList l =>
      (Ok {| updated_at := clock w (clock_reads s);
             tip := walking_tip;
             articles := PList (take 5 l) |}, ticked s)
  | PStr t =>
      (Ok {| updated_at := clock w (clock_reads s);
             tip := walking_tip;
             articles := PStr (take 5 t) |}, ticked s)
  | v => on_error pf w (slice_error pf v) (ticked s)
  end.
Proof.
  intros Hst. unfold after_parse_on, try_except, mbind, M_bind, dict_get.
  unfold mret at 1. unfold M_ret at 1.
  rewrite Hst. cbn [default from_option id].
  rewrite (proj2 (py_eq_str_true _ _) eq_refl).
  unfold datetime_now_isoformat, slice_to, slice_error, raise, mret, M_ret,
    ticked.
  cbn [stdout requests_sent clock_reads].
  destruct (from_option id (PList []) (d !! u "articles")); reflexivity.
Qed.

Lemma on_error_plain w e s :
  on_error plain w e s =
  generate_fallback_data w (printed (WithExc (u "Error fetching news: ") e) s).
Proof. now rewrite on_error_run. Qed.

Section Keyed.

(** A world whose environment holds a non-empty key. *)
Context (w : world) (key : str).
Hypothesis Hk : API_KEY w = Some key.
Hypothesis Hkey : key <> [].

(** The request goes out; a failure of the request or of the parse is
    handled at once, a parsed value goes on through the [try] block. *)
Lemma fetch_with_key s :
  fetch_health_news w s =
  match requests_get w (url_for key) with
  | inl e =>
      generate_fallback_data w
        (printed (WithExc (u "Error fetching news: ") e) (requested (url_for key) s))
  | inr r =>
      match json r with
      | inl e =>
          generate_fallback_data w
            (printed (WithExc (u "Error fetching news: ") e) (requested (url_for key) s))
      | inr data => after_parse w data (requested (url_for key) s)
      end
  end.
Proof.
  unfold fetch_health_news, after_parse.
  rewrite (fetch_on_with_key plain w key s Hk Hkey). cbn [plain never_answers].
  destruct (requests_get w (url_for key)) as [e | r];
    [apply on_error_plain|].
  destruct (json r) as [e | data]; [apply on_error_plain | reflexivity].
Qed.

Lemma fetch_parsed s r data :
  requests_get w (url_for key) = inr r ->
  json r = inr data ->
  fetch_health_news w s = after_parse w data (requested (url_for key) s).
Proof. intros Hget Hjson. now rewrite fetch_with_key, Hget, Hjson. Qed.

(** The value of a run that ends in the fallback generator, whatever was
    printed and requested before. *)
Lemma fallback_value s s1 :
  clock_reads s1 = clock_reads s ->
  fetch_health_news w s = generate_fallback_data w s1 ->
  exists b,
    value (fetch_health_news w) s = Ok b /\
    value (generate_fallback_data w) s = Ok b.
Proof.
  intros Hreads Hrun. unfold value at 1. rewrite Hrun.
  destruct (generate_fallback_data_total w s1) as (b & Hb & _).
  exists b. rewrite Hb. split; [reflexivity|].
  rewrite (generate_fallback_data_reading w s s1) by now rewrite Hreads.
  unfold value. now rewrite Hb.
Qed.

(** C3: when the parsed JSON carries no status, or a status other than
    the string ["ok"], the bundle returned is the one
    [generate_fallback_data] produces; for a JSON object the raw value is
    printed first.  (A parsed value that is no object at all ends the
    same way, through the handler.) *)
Theorem status_not_ok_fallback s r data :
  requests_get w (url_for key) = inr r ->
  json r = inr data ->
  (forall d, data = PDict d -> d !! u "status" <> Some (PStr (u "ok"))) ->
  (exists b,
     value (fetch_health_news w) s = Ok b /\
     value (generate_fallback_data w) s = Ok b) /\
  (forall d, data = PDict d ->
     fetch_health_news w s =
     generate_fallback_data w
       (printed (WithValue (u "API Error: ") data)
          (requested (url_for key) s))).
Proof.
  intros Hget Hjson Hst.
  assert (Hrun : exists l,
    fetch_health_news w s = generate_fallback_data w (printed l (requested (url_for key) s)) /\
    forall d, data = PDict d -> l = WithValue (u "API Error: ") data).
  { rewrite (fetch_parsed s r data Hget Hjson).
    destruct data as [ | | | | | | d].
    1-6: eexists; split;
      [apply after_parse_not_dict; discriminate | discriminate].
    eexists. split; [apply after_parse_not_ok; now apply Hst | reflexivity]. }
  destruct Hrun as (l & Hrun & Hl). split.
  - eapply fallback_value; [|exact Hrun]. reflexivity.
  - intros d Hd. rewrite Hrun. now rewrite (Hl d Hd).
Qed.

(** C2: when the parsed JSON has status ["ok"] and an [articles] array
    of length n, the bundle returned holds in [articles] the first
    min(5, n) elements of that array, in their order, and nothing
    else. *)
Theorem ok_articles_first_five s r d found :
  requests_get w (url_for key) = inr r ->
  json r = inr (PDict d) ->
  d !! u "status" = Some (PStr (u "ok")) ->
  d !! u "articles" = Some (PList found) ->
  exists b out,
    value (fetch_health_news w) s = Ok b /\
    articles b = PList out /\
    out = take (min 5 (length found)) found /\
    length out = min 5 (length found) /\
    (forall i, i < min 5 (length found) -> out !! i = found !! i).
Proof.
  intros Hget Hjson Hst Hfound.
  unfold value.
  rewrite (fetch_parsed s r (PDict d) Hget Hjson).
  rewrite (after_parse_ok w d _ Hst), Hfound.
  cbn [default from_option id fst].
  eexists _, (take 5 found). split; [reflexivity|]. cbn [articles].
  split; [reflexivity|]. split; [now rewrite take_min_length|].
  split; [apply length_take|].
  intros i Hi. apply lookup_take_lt. lia.
Qed.

(** C1, amended: when the parsed JSON has status ["ok"] and its
    [articles] is absent, an array or a string, the bundle returned
    carries the fixed Arabic tip about walking 30 minutes a day. *)
Theorem ok_response_tip s r d :
  requests_get w (url_for key) = inr r ->
  json r = inr (PDict d) ->
  d !! u "status" = Some (PStr (u "ok")) ->
  sliceable (default (PList []) (d !! u "articles")) = true ->
  exists b,
    value (fetch_health_news w) s = Ok b /\
    tip b = walking_tip /\
    top_five (default (PList []) (d !! u "articles")) = Some (articles b).
Proof.
  intros Hget Hjson Hst Hsl.
  unfold value.
  rewrite (fetch_parsed s r (PDict d) Hget Hjson).
  rewrite (after_parse_ok w d _ Hst).
  destruct (default (PList []) (d !! u "articles")); try discriminate Hsl;
    eexists; cbn [fst]; (split; [reflexivity|]); cbn [tip articles top_five];
    split; reflexivity.
Qed.

End Keyed.

(** *** The sample runs with a key *)

Lemma key_of_keyed get : API_KEY (keyed get) = Some (u "k3y").
Proof. vm_compute. reflexivity. Qed.

Lemma k3y_not_empty : u "k3y" <> [].
Proof. vm_compute. discriminate. Qed.

Lemma status_not_ok_fallback_witness :
  (exists b,
     value (fetch_health_news error_status_world) fresh = Ok b /\
     value (generate_fallback_data error_status_world) fresh = Ok b) /\
  (exists b,
     value (fetch_health_news no_status_world) fresh = Ok b /\
     value (generate_fallback_data no_status_world) fresh = Ok b).
Proof.
  split.
  - refine (proj1 (status_not_ok_fallback error_status_world (u "k3y")
                     (key_of_keyed _) k3y_not_empty fresh
                     {| json := inr (PDict {[ u "status" := PStr (u "error") ]}) |}
                     (PDict {[ u "status" := PStr (u "error") ]})
                     eq_refl eq_refl _)).
    intros d [= <-]. vm_compute. discriminate.
  - refine (proj1 (status_not_ok_fallback no_status_world (u "k3y")
                     (key_of_keyed _) k3y_not_empty fresh
                     {| json := inr (PDict {[ u "message" := PStr (u "rate limited") ]}) |}
                     (PDict {[ u "message" := PStr (u "rate limited") ]})
                     eq_refl eq_refl _)).
    intros d [= <-]. vm_compute. discriminate.
Defined.

Lemma ok_articles_first_five_witness :
  exists b,
    value (fetch_health_news seven_world) fresh = Ok b /\
    articles b =
    PList [headline 1; headline 2; headline 3; headline 4; headline 5].
Proof.
  destruct (ok_articles_first_five seven_world (u "k3y")
              (key_of_keyed _) k3y_not_empty fresh
              {| json := inr (ok_body (PList seven_headlines)) |}
              (<[u "status" := PStr (u "ok")]>
                 (<[u "articles" := PList seven_headlines]> ∅))
              seven_headlines
              eq_refl eq_refl
              ltac:(vm_compute; reflexivity) ltac:(vm_compute; reflexivity))
    as (b & out & Hb & Harts & Hout & _).
  exists b. split; [exact Hb|]. rewrite Harts, Hout. reflexivity.
Defined.

Lemma ok_response_tip_witness :
  exists b,
    value (fetch_health_news seven_world) fresh = Ok b /\
    tip b = walking_tip.
Proof.
  destruct (ok_response_tip seven_world (u "k3y")
              (key_of_keyed _) k3y_not_empty fresh
              {| json := inr (ok_body (PList seven_headlines)) |}
              (<[u "status" := PStr (u "ok")]>
                 (<[u "articles" := PList seven_headlines]> ∅))
              eq_refl eq_refl
              ltac:(vm_compute; reflexivity) ltac:(vm_compute; reflexivity))
    as (b & Hb & Htip & _).
  exists b. split; [exact Hb | exact Htip].
Defined.

(** C1, as stated, fails: upstream answers with status ["ok"] and seven
    articles, and the bundle returned carries the walking tip, which is
    not the water-intake string. *)
Lemma ok_response_tip_is_not_water_tip :
  (exists r d,
     requests_get seven_world (url_for (u "k3y")) = inr r /\
     json r = inr (PDict d) /\
     d !! u "status" = Some (PStr (u "ok"))) /\
  exists b,
    value (fetch_health_news seven_world) fresh = Ok b /\
    tip b = walking_tip /\
    tip b <> water_tip.
Proof.
  split.
  - exists {| json := inr (ok_body (PList seven_headlines)) |},
      (<[u "status" := PStr (u "ok")]>
         (<[u "articles" := PList seven_headlines]> ∅)).
    split; [reflexivity|]. split; [reflexivity|]. vm_compute. reflexivity.
  - exists {| updated_at := sample_clock 0;
              tip := walking_tip;
              articles := PList (take 5 seven_headlines) |}.
    split; [vm_compute; reflexivity|]. cbn [tip].
    split; [reflexivity|]. vm_compute. discriminate.
Qed.

(** A status of ["ok"] over articles that cannot be sliced ([null] here)
    ends in the handler: the bundle is the fallback one, stamped with the
    second reading of the clock. *)
Example ok_status_null_articles :
  exists b,
    value (fetch_health_news null_articles_world) fresh = Ok b /\
    tip b = water_tip /\
    articles b = fallback_articles /\
    updated_at b = sample_clock 1.
Proof.
  exists {| updated_at := sample_clock 1;
            tip := water_tip;
            articles := fallback_articles |}.
  split; [vm_compute; reflexivity|]. cbn [tip articles updated_at].
  repeat split; reflexivity.
Qed.

(** ** Every run *)

(** Every run returns, and returns one of two shapes of bundle: the
    fallback one, or the walking tip over the first five of what upstream
    sent. *)
Lemma fetch_health_news_outcome w s :
  exists b,
    value (fetch_health_news w) s = Ok b /\
    ((tip b = water_tip /\ articles b = fallback_articles) \/
     (tip b = walking_tip /\
      exists found top, top_five found = Some top /\ articles b = top)).
Proof.
  assert (Hfb : forall s1,
    exists b, fst (generate_fallback_data w s1) = Ok b /\
      ((tip b = water_tip /\ articles b = fallback_articles) \/
       (tip b = walking_tip /\
        exists found top, top_five found = Some top /\ articles b = top))).
  { intros s1. destruct (generate_fallback_data_run w s1) as (b & -> & Hb).
    exists b. split; [reflexivity | left; exact Hb]. }
  unfold value. destruct (py_not (API_KEY w)) eqn:Hnot.
  - rewrite (fetch_without_key w s Hnot). apply Hfb.
  - destruct (py_not_false_inv _ Hnot) as (key & Hk & Hkey).
    rewrite (fetch_with_key w key Hk Hkey s).
    destruct (requests_get w (url_for key)) as [e | r]; [apply Hfb|].
    destruct (json r) as [e | data]; [apply Hfb|].
    set (s1 := requested (url_for key) s).
    destruct data as [ | | | | | | d];
      try (rewrite after_parse_not_dict by discriminate; apply Hfb).
    destruct (py_eq_str (default PNone (d !! u "status")) (u "ok")) eqn:Hst.
    + apply py_eq_str_true in Hst.
      assert (Hst' : d !! u "status" = Some (PStr (u "ok"))).
      { destruct (d !! u "status"); cbn [default from_option id] in Hst;
          [congruence | discriminate]. }
      rewrite (after_parse_ok w d s1 Hst').
      destruct (default (PList []) (d !! u "articles")) as [ | | | | t | l | ].
      1-4, 7: apply Hfb.
      * eexists. cbn [fst]. split; [reflexivity|]. cbn [tip articles].
        right. split; [reflexivity|].
        exists (PStr t), (PStr (take 5 t)). split; reflexivity.
      * eexists. cbn [fst]. split; [reflexivity|]. cbn [tip articles].
        right. split; [reflexivity|].
        exists (PList l), (PList (take 5 l)). split; reflexivity.
    + rewrite after_parse_not_ok; [apply Hfb|].
      intros Hst'. rewrite Hst' in Hst. cbn [default from_option id] in Hst.
      rewrite (proj2 (py_eq_str_true _ _) eq_refl) in Hst. discriminate.
Qed.

(** C7: every run of [fetch_health_news] returns a bundle, whichever path
    it takes, and the [articles] of that bundle has length at most 5. *)
Theorem articles_at_most_five w s :
  exists b n,
    value (fetch_health_news w) s = Ok b /\
    py_len (articles b) = Some n /\
    n <= 5.
Proof.
  destruct (fetch_health_news_outcome w s)
    as (b & Hb & [[_ Harts] | [_ (found & top & Htop & Harts)]]).
  - exists b, 2. split; [exact Hb|]. rewrite Harts. split; [reflexivity | lia].
  - destruct (top_five_len found top Htop) as (n & Hlen & Hn).
    exists b, n. rewrite Harts. auto.
Qed.

(** ** What a run leaves behind *)

Lemma generate_fallback_data_spec w s :
  exists b,
    generate_fallback_data w s = (Ok b, ticked s) /\
    updated_at b = clock w (clock_reads s) /\
    tip b = water_tip /\
    articles b = fallback_articles.
Proof.
  run_script. unfold water_tip, fallback_articles.
  eexists. split; [reflexivity|]. cbn [updated_at tip articles].
  repeat split; reflexivity.
Qed.

Lemma tips_differ : water_tip <> walking_tip.
Proof. vm_compute. discriminate. Qed.

Lemma diagnostic_no_key :
  diagnostic (Plain (u "No API Key found. Generating static fallback data."))
  = true.
Proof. vm_compute. reflexivity. Qed.

Lemma diagnostic_api_error v : diagnostic (WithValue (u "API Error: ") v) = true.
Proof. cbn [diagnostic]. now apply bool_decide_eq_true. Qed.

Lemma diagnostic_fetch_error e :
  diagnostic (WithExc (u "Error fetching news: ") e) = true.
Proof. cbn [diagnostic]. now apply bool_decide_eq_true. Qed.

(** The three ways a run can end, from the state [s0] in which the request,
    if there was one, is on record: in the fallback generator after one
    diagnostic; in the fallback generator after a first reading of the
    clock and one diagnostic; or with the live bundle. *)
Lemma fetch_health_news_shape w s :
  exists s0,
    stdout s0 = stdout s /\
    clock_reads s0 = clock_reads s /\
    requests_sent s0 = requests_sent s ++ urls_of w /\
    ((exists l, diagnostic l = true /\
        fetch_health_news w s = generate_fallback_data w (printed l s0)) \/
     (exists l, diagnostic l = true /\
        fetch_health_news w s =
        generate_fallback_data w (printed l (ticked s0))) \/
     (exists b,
        fetch_health_news w s = (Ok b, ticked s0) /\
        tip b = walking_tip /\
        updated_at b = clock w (clock_reads s))).
Proof.
  unfold urls_of. destruct (py_not (API_KEY w)) eqn:Hnot.
  - exists s. rewrite app_nil_r. repeat (split; [reflexivity|]).
    left. eexists. split; [apply diagnostic_no_key|].
    apply (fetch_without_key w s Hnot).
  - destruct (py_not_false_inv _ Hnot) as (key & Hk & Hkey).
    rewrite Hk. cbn [format_key].
    exists (requested (endpoint ++ key) s). repeat (split; [reflexivity|]).
    rewrite (fetch_with_key w key Hk Hkey s). unfold url_for.
    destruct (requests_get w (endpoint ++ key)) as [e | r].
    { left. eexists. split; [apply diagnostic_fetch_error | reflexivity]. }
    destruct (json r) as [e | data].
    { left. eexists. split; [apply diagnostic_fetch_error | reflexivity]. }
    set (s1 := requested (endpoint ++ key) s).
    destruct data as [ | | | | | | d].
    1-6: left; eexists; split;
      [apply diagnostic_fetch_error | apply after_parse_not_dict; discriminate].
    destruct (py_eq_str (default PNone (d !! u "status")) (u "ok")) eqn:Hst.
    + apply py_eq_str_true in Hst.
      assert (Hst' : d !! u "status" = Some (PStr (u "ok"))).
      { destruct (d !! u "status"); cbn [default from_option id] in Hst;
          [congruence | discriminate]. }
      rewrite (after_parse_ok w d s1 Hst').
      destruct (default (PList []) (d !! u "articles")) as [ | | | | t | l | ].
      1-4, 7: right; left; eexists; split;
        [apply diagnostic_fetch_error | reflexivity].
      all: right; right; eexists; split; [reflexivity|];
        cbn [tip updated_at]; split; reflexivity.
    + left. eexists. split; [apply diagnostic_api_error|].
      apply after_parse_not_ok.
      intros Hst'. rewrite Hst' in Hst. cbn [default from_option id] in Hst.
      rewrite (proj2 (py_eq_str_true _ _) eq_refl) in Hst. discriminate.
Qed.

(** X1: a run sends at most one HTTP request.  None without a usable key;
    otherwise exactly one, whatever the answer, to the endpoint followed by
    the key as it stands. *)
Theorem one_request_at_most w s :
  requests_sent (snd (fetch_health_news w s)) =
  requests_sent s ++
  match API_KEY w with
  | Some (c :: key) => [endpoint ++ c :: key]
  | _ => []
  end.
Proof.
  assert (Hurls : urls_of w =
    match API_KEY w with
    | Some (c :: key) => [endpoint ++ c :: key]
    | _ => []
    end).
  { unfold urls_of. destruct (API_KEY w) as [[|c key]|]; reflexivity. }
  rewrite <- Hurls.
  destruct (fetch_health_news_shape w s)
    as (s0 & _ & _ & Hreq & [(l & _ & ->) | [(l & _ & ->) | (b & -> & _)]]).
  - destruct (generate_fallback_data_total w (printed l s0)) as (b & -> & _).
    exact Hreq.
  - destruct (generate_fallback_data_total w (printed l (ticked s0)))
      as (b & -> & _).
    exact Hreq.
  - exact Hreq.
Qed.

(** X3: the live bundle comes without a word on standard output; the
    fallback bundle always comes with exactly one diagnostic line. *)
Theorem one_diagnostic_or_none w s :
  exists b,
    value (fetch_health_news w) s = Ok b /\
    ((tip b = walking_tip /\
      stdout (snd (fetch_health_news w s)) = stdout s) \/
     (tip b = water_tip /\
      exists l, diagnostic l = true /\
        stdout (snd (fetch_health_news w s)) = stdout s ++ [l])).
Proof.
  unfold value.
  destruct (fetch_health_news_shape w s)
    as (s0 & Hout & _ & _ & [(l & Hl & ->) | [(l & Hl & ->) | (b & -> & Htip & _)]]).
  - destruct (generate_fallback_data_spec w (printed l s0))
      as (b & -> & _ & Htip & _).
    exists b. split; [reflexivity|]. right. split; [exact Htip|].
    exists l. split; [exact Hl|]. cbn [snd ticked printed stdout].
    now rewrite Hout.
  - destruct (generate_fallback_data_spec w (printed l (ticked s0)))
      as (b & -> & _ & Htip & _).
    exists b. split; [reflexivity|]. right. split; [exact Htip|].
    exists l. split; [exact Hl|]. cbn [snd ticked printed stdout].
    now rewrite Hout.
  - exists b. split; [reflexivity|]. left. split; [exact Htip|].
    cbn [snd ticked stdout]. exact Hout.
Qed.

Lemma generate_fallback_data_tip w s b :
  fst (generate_fallback_data w s) = Ok b -> tip b = water_tip.
Proof.
  destruct (generate_fallback_data_spec w s) as (b' & -> & _ & Htip & _).
  cbn [fst]. now intros [= <-].
Qed.

(** X4: the walking tip is proof of a live answer.  A bundle that carries
    it was built from a response whose body parsed to an object with status
    exactly ["ok"], and its articles are the first five of that object's
    (none when the object has no articles). *)
Theorem walking_tip_only_from_ok w s b :
  value (fetch_health_news w) s = Ok b ->
  tip b = walking_tip ->
  exists key r d,
    API_KEY w = Some key /\ key <> [] /\
    requests_get w (url_for key) = inr r /\
    json r = inr (PDict d) /\
    d !! u "status" = Some (PStr (u "ok")) /\
    top_five (default (PList []) (d !! u "articles")) = Some (articles b).
Proof.
  unfold value. intros Hb Htip.
  assert (Hfb : forall s1, fst (generate_fallback_data w s1) = Ok b -> False).
  { intros s1 H1. apply generate_fallback_data_tip in H1.
    apply tips_differ. now rewrite <- H1, <- Htip. }
  destruct (py_not (API_KEY w)) eqn:Hnot.
  { rewrite (fetch_without_key w s Hnot) in Hb. now apply Hfb in Hb. }
  destruct (py_not_false_inv _ Hnot) as (key & Hk & Hkey).
  rewrite (fetch_with_key w key Hk Hkey s) in Hb.
  destruct (requests_get w (url_for key)) as [e | r] eqn:Hget.
  { now apply Hfb in Hb. }
  destruct (json r) as [e | data] eqn:Hjson.
  { now apply Hfb in Hb. }
  destruct data as [ | | | | | | d].
  1-6: rewrite after_parse_not_dict in Hb by discriminate; now apply Hfb in Hb.
  exists key, r, d.
  destruct (py_eq_str (default PNone (d !! u "status")) (u "ok")) eqn:Hst.
  - apply py_eq_str_true in Hst.
    assert (Hst' : d !! u "status" = Some (PStr (u "ok"))).
    { destruct (d !! u "status"); cbn [default from_option id] in Hst;
        [congruence | discriminate]. }
    rewrite (after_parse_ok w d _ Hst') in Hb.
    do 5 (split; [assumption|]).
    destruct (default (PList []) (d !! u "articles")) as [ | | | | t | l | ].
    1-4, 7: now apply Hfb in Hb.
    all: cbn [fst] in Hb; injection Hb as <-; reflexivity.
  - rewrite after_parse_not_ok in Hb; [now apply Hfb in Hb|].
    intros Hst'. rewrite Hst' in Hst. cbn [default from_option id] in Hst.
    rewrite (proj2 (py_eq_str_true _ _) eq_refl) in Hst. discriminate.
Qed.

Section KeyedEdges.

Context (w : world) (key : str).
Hypothesis Hk : API_KEY w = Some key.
Hypothesis Hkey : key <> [].

(** X6: a body that parses to something else than an object (an array, a
    string, a number, [null]) has no [get]; the handler reports the
    [AttributeError] and the fallback bundle is returned. *)
Theorem non_object_body_fallback s r data :
  requests_get w (url_for key) = inr r ->
  json r = inr data ->
  (forall d, data <> PDict d) ->
  fetch_health_news w s =
  generate_fallback_data w
    (printed (WithExc (u "Error fetching news: ") AttributeError)
       (requested (url_for key) s)) /\
  exists b,
    value (fetch_health_news w) s = Ok b /\
    tip b = water_tip /\
    articles b = fallback_articles.
Proof.
  intros Hget Hjson Hnd.
  assert (Hrun : fetch_health_news w s =
    generate_fallback_data w
      (printed (WithExc (u "Error fetching news: ") AttributeError)
         (requested (url_for key) s))).
  { rewrite (fetch_parsed w key Hk Hkey s r data Hget Hjson).
    now apply after_parse_not_dict. }
  split; [exact Hrun|]. unfold value. rewrite Hrun.
  set (s1 := printed _ _).
  destruct (generate_fallback_data_spec w s1) as (b & -> & _ & Htip & Harts).
  exists b. split; [reflexivity|]. split; assumption.
Qed.

(** X7: upstream arrays of at most five articles pass through whole and
    unchanged, and an object without [articles] yields the empty list. *)
Theorem short_arrays_unchanged s r d found :
  requests_get w (url_for key) = inr r ->
  json r = inr (PDict d) ->
  d !! u "status" = Some (PStr (u "ok")) ->
  default (PList []) (d !! u "articles") = PList found ->
  length found <= 5 ->
  exists b,
    value (fetch_health_news w) s = Ok b /\
    articles b = PList found.
Proof.
  intros Hget Hjson Hst Hfound Hlen.
  unfold value.
  rewrite (fetch_parsed w key Hk Hkey s r (PDict d) Hget Hjson).
  rewrite (after_parse_ok w d _ Hst), Hfound.
  eexists. cbn [fst]. split; [reflexivity|]. cbn [articles].
  now rewrite take_ge.
Qed.

End KeyedEdges.

Lemma walking_tip_only_from_ok_witness :
  exists b key r d,
    value (fetch_health_news seven_world) fresh = Ok b /\
    tip b = walking_tip /\
    requests_get seven_world (url_for key) = inr r /\
    json r = inr (PDict d) /\
    d !! u "status" = Some (PStr (u "ok")).
Proof.
  assert (Hb : value (fetch_health_news seven_world) fresh =
               Ok {| updated_at := sample_clock 0;
                     tip := walking_tip;
                     articles := PList (take 5 seven_headlines) |})
    by (vm_compute; reflexivity).
  assert (Htip : tip {| updated_at := sample_clock 0;
                         tip := walking_tip;
                         articles := PList (take 5 seven_headlines) |} =
                 walking_tip)
    by (cbn [tip]; reflexivity).
  destruct (walking_tip_only_from_ok seven_world fresh _ Hb Htip)
    as (key & r & d & _ & _ & Hget & Hjson & Hst & _).
  eexists _, key, r, d.
  split; [exact Hb|]. cbn [tip]. split; [reflexivity|].
  split; [exact Hget|]. split; [exact Hjson | exact Hst].
Defined.

Lemma non_object_body_fallback_witness :
  exists b,
    value (fetch_health_news array_body_world) fresh = Ok b /\
    tip b = water_tip.
Proof.
  destruct (non_object_body_fallback array_body_world (u "k3y")
              (key_of_keyed _) k3y_not_empty fresh
              {| json := inr (PList [headline 1]) |} (PList [headline 1])
              eq_refl eq_refl ltac:(discriminate))
    as (_ & b & Hb & Htip & _).
  exists b. split; [exact Hb | exact Htip].
Defined.

Lemma short_arrays_unchanged_witness :
  exists b,
    value (fetch_health_news bare_ok_world) fresh = Ok b /\
    articles b = PList [].
Proof.
  destruct (short_arrays_unchanged bare_ok_world (u "k3y")
              (key_of_keyed _) k3y_not_empty fresh
              {| json := inr (PDict {[ u "status" := PStr (u "ok") ]}) |}
              {[ u "status" := PStr (u "ok") ]} []
              eq_refl eq_refl
              ltac:(vm_compute; reflexivity) ltac:(vm_compute; reflexivity)
              ltac:(simpl; lia))
    as (b & Hb & Harts).
  exists b. split; [exact Hb | exact Harts].
Defined.

(** ** The main block *)

Lemma dirname_output_file : os_path_dirname OUTPUT_FILE = u "data".
Proof. vm_compute. reflexivity. Qed.

Lemma success_text :
  Plain (u "Successfully updated " ++ OUTPUT_FILE) = success_line.
Proof. vm_compute. reflexivity. Qed.

Lemma success_line_no_diagnostic : diagnostic success_line = false.
Proof. vm_compute. reflexivity. Qed.

Lemma fetch_health_news_total w s :
  exists b s', fetch_health_news w s = (Ok b, s').
Proof.
  destruct (fetch_health_news_outcome w s) as (b & Hb & _).
  unfold value in Hb. destruct (fetch_health_news w s) as [r s'].
  cbn [fst] in Hb. subst r. now exists b, s'.
Qed.

(** The block, step by step: fetch, make sure of the directory, open and
    dump, report.  No step is guarded. *)
Lemma main_on_run pf w fs p b s' :
  fetch_health_news_on pf w (console p) = (Ok b, s') ->
  main_on pf w fs p =
  match os_makedirs fs (u "data") with
  | Some e => (Raise e, with_console s' p)
  | None =>
      match open_w fs OUTPUT_FILE with
      | Some e => (Raise e, ensured (u "data") (with_console s' p))
      | None =>
          match json_dump fs b with
          | Some e =>
              (Raise e, holding Truncated (ensured (u "data") (with_console s' p)))
          | None =>
              match stdout_error pf success_line with
              | Some e =>
                  (Raise e,
                   holding (Dumped b) (ensured (u "data") (with_console s' p)))
              | None =>
                  (Ok tt,
                   with_console (printed success_line s')
                     (holding (Dumped b)
                        (ensured (u "data") (with_console s' p))))
              end
          end
      end
  end.
Proof.
  intros Hfetch. unfold main_on, mbind, P_bind, in_console.
  rewrite Hfetch, dirname_output_file, success_text.
  unfold do_makedirs, write_json, print, with_console, ensured, holding, printed.
  cbn [console files dirs_ensured].
  destruct (os_makedirs fs (u "data")); [reflexivity|].
  destruct (open_w fs OUTPUT_FILE); [reflexivity|].
  destruct (json_dump fs b); [reflexivity|].
  destruct (stdout_error pf success_line); reflexivity.
Qed.


Lemma main_run w fs p b s' :
  fetch_health_news w (console p) = (Ok b, s') ->
  main w fs p =
  match os_makedirs fs (u "data") with
  | Some e => (Raise e, with_console s' p)
  | None =>
      match open_w fs OUTPUT_FILE with
      | Some e => (Raise e, ensured (u "data") (with_console s' p))
      | None =>
          match json_dump fs b with
          | Some e =>
              (Raise e, holding Truncated (ensured (u "data") (with_console s' p)))
          | None =>
              (Ok tt,
               with_console (printed success_line s')
                 (holding (Dumped b) (ensured (u "data") (with_console s' p))))
          end
      end
  end.
Proof.
  intros Hfetch. unfold main. unfold fetch_health_news in Hfetch.
  rewrite (main_on_run plain w fs p b s' Hfetch).
  destruct (os_makedirs fs (u "data")); [reflexivity|].
  destruct (open_w fs OUTPUT_FILE); [reflexivity|].
  destruct (json_dump fs b); reflexivity.
Qed.

(** What [fetch_health_news] adds to standard output is made of its own
    diagnostics. *)
Lemma fetch_health_news_stdout w s :
  exists ls,
    stdout (snd (fetch_health_news w s)) = stdout s ++ ls /\
    Forall (fun l => diagnostic l = true) ls.
Proof.
  destruct (fetch_health_news_shape w s)
    as (s0 & Hout & _ & _ & [(l & Hl & ->) | [(l & Hl & ->) | (b & -> & _)]]).
  - destruct (generate_fallback_data_total w (printed l s0)) as (b & -> & _).
    exists [l]. cbn [snd ticked printed stdout]. rewrite Hout. auto.
  - destruct (generate_fallback_data_total w (printed l (ticked s0)))
      as (b & -> & _).
    exists [l]. cbn [snd ticked printed stdout]. rewrite Hout. auto.
  - exists []. cbn [snd ticked stdout]. rewrite Hout, app_nil_r. auto.
Qed.

(** X9: a failure to make the directory or to open the file is not caught.
    The exception leaves the script, no file is touched and no success is
    reported; the fetch, with its request, has taken place all the same. *)
Theorem unwritable_output_propagates w fs p e :
  os_makedirs fs (u "data") = Some e \/
  (os_makedirs fs (u "data") = None /\ open_w fs OUTPUT_FILE = Some e) ->
  fst (main w fs p) = Raise e /\
  files (snd (main w fs p)) = files p /\
  console (snd (main w fs p)) = snd (fetch_health_news w (console p)).
Proof.
  intros Hfail.
  destruct (fetch_health_news_total w (console p)) as (b & s' & Hfetch).
  rewrite (main_run w fs p b s' Hfetch), Hfetch.
  destruct Hfail as [-> | [-> ->]]; repeat split; reflexivity.
Qed.

Lemma unwritable_output_propagates_witness :
  fst (main seven_world readonly_fs boot) =
  Raise (LibraryError (u "PermissionError")) /\
  files (snd (main seven_world readonly_fs boot)) = ∅ /\
  requests_sent (console (snd (main seven_world readonly_fs boot))) =
  [url_for (u "k3y")].
Proof.
  destruct (unwritable_output_propagates seven_world readonly_fs boot
              (LibraryError (u "PermissionError")) (or_introl eq_refl))
    as (Hr & Hfiles & Hconsole).
  split; [exact Hr|]. split; [exact Hfiles|].
  rewrite Hconsole. vm_compute. reflexivity.
Defined.

(** X10: a dump that fails after the file was opened is not caught either,
    and it costs the previous file: mode ['w'] has truncated it, and what
    is left is no complete bundle. *)
Theorem failed_dump_truncates w fs p b e :
  os_makedirs fs (u "data") = None ->
  open_w fs OUTPUT_FILE = None ->
  value (fetch_health_news w) (console p) = Ok b ->
  json_dump fs b = Some e ->
  fst (main w fs p) = Raise e /\
  files (snd (main w fs p)) !! OUTPUT_FILE = Some Truncated /\
  console (snd (main w fs p)) = snd (fetch_health_news w (console p)).
Proof.
  intros Hdir Hopen Hb Hdump.
  destruct (fetch_health_news_total w (console p)) as (b' & s' & Hfetch).
  unfold value in Hb. rewrite Hfetch in Hb. cbn [fst] in Hb.
  injection Hb as ->.
  rewrite (main_run w fs p b s' Hfetch), Hfetch, Hdir, Hopen, Hdump.
  cbn [fst snd holding ensured with_console files console].
  split; [reflexivity|]. split; [apply lookup_insert_eq | reflexivity].
Qed.

Lemma failed_dump_truncates_witness :
  value (fetch_health_news unreachable_world) fresh =
  Ok {| updated_at := sample_clock 0;
        tip := water_tip;
        articles := fallback_articles |} /\
  fst (main unreachable_world full_disk_fs
         (holding (Dumped {| updated_at := u "2025-12-31T06:00:00";
                             tip := water_tip;
                             articles := PList [] |}) boot)) =
  Raise (LibraryError (u "OSError")) /\
  files (snd (main unreachable_world full_disk_fs
                (holding (Dumped {| updated_at := u "2025-12-31T06:00:00";
                                    tip := water_tip;
                                    articles := PList [] |}) boot)))
    !! OUTPUT_FILE = Some Truncated.
Proof.
  assert (Hb : value (fetch_health_news unreachable_world) fresh =
               Ok {| updated_at := sample_clock 0;
                     tip := water_tip;
                     articles := fallback_articles |})
    by (vm_compute; reflexivity).
  split; [exact Hb|].
  destruct (failed_dump_truncates unreachable_world full_disk_fs
              (holding (Dumped {| updated_at := u "2025-12-31T06:00:00";
                                  tip := water_tip;
                                  articles := PList [] |}) boot)
              _ (LibraryError (u "OSError")) eq_refl eq_refl Hb eq_refl)
    as (Hr & Hfile & _).
  split; [exact Hr | exact Hfile].
Defined.

(** X11: the script reports success exactly when it completes: the lines
    it adds to standard output contain the success line if and only if no
    exception left it, and then that line is the last one. *)
Theorem success_line_iff_ok w fs p :
  exists lines,
    stdout (console (snd (main w fs p))) = stdout (console p) ++ lines /\
    (fst (main w fs p) = Ok tt <-> In success_line lines) /\
    (In success_line lines <-> last lines = Some success_line).
Proof.
  destruct (fetch_health_news_total w (console p)) as (b & s' & Hfetch).
  destruct (fetch_health_news_stdout w (console p)) as (ls & Hls & Hdiag).
  rewrite Hfetch in Hls. cbn [snd] in Hls.
  assert (Hnot : ~ In success_line ls).
  { intros Hin. rewrite Forall_forall in Hdiag.
    apply list_elem_of_In, Hdiag in Hin.
    rewrite success_line_no_diagnostic in Hin. discriminate. }
  assert (Hlast : last ls <> Some success_line).
  { intros Hl. apply last_Some in Hl as [l' ->].
    apply Hnot, in_or_app. right. now left. }
  rewrite (main_run w fs p b s' Hfetch).
  destruct (os_makedirs fs (u "data")) as [e|];
    [|destruct (open_w fs OUTPUT_FILE) as [e|];
      [|destruct (json_dump fs b) as [e|]]].
  1-3: exists ls; cbn [fst snd console with_console ensured holding];
    split; [exact Hls|]; split; (split; [discriminate || tauto | tauto]).
  exists (ls ++ [success_line]).
  cbn [fst snd console with_console ensured holding printed stdout].
  rewrite Hls, app_assoc. split; [reflexivity|].
  assert (Hin : In success_line (ls ++ [success_line]))
    by (apply in_or_app; right; now left).
  split; [tauto|]. rewrite last_snoc. tauto.
Qed.

(** X13: whenever the script completes, the file holds the bundle
    [fetch_health_news] returned, and that bundle has at most five
    articles under one of the two fixed tips. *)
Theorem written_bundle_bounded w fs p :
  fst (main w fs p) = Ok tt ->
  exists b n,
    files (snd (main w fs p)) !! OUTPUT_FILE = Some (Dumped b) /\
    value (fetch_health_news w) (console p) = Ok b /\
    (tip b = water_tip \/ tip b = walking_tip) /\
    py_len (articles b) = Some n /\
    n <= 5.
Proof.
  destruct (fetch_health_news_outcome w (console p)) as (b & Hb & Hshape).
  destruct (fetch_health_news_total w (console p)) as (b' & s' & Hfetch).
  unfold value in Hb. rewrite Hfetch in Hb. cbn [fst] in Hb.
  injection Hb as ->.
  rewrite (main_run w fs p b s' Hfetch). unfold value. rewrite Hfetch.
  destruct (os_makedirs fs (u "data")) as [e|]; [discriminate|].
  destruct (open_w fs OUTPUT_FILE) as [e|]; [discriminate|].
  destruct (json_dump fs b) as [e|]; [discriminate|].
  intros _. cbn [fst snd files with_console ensured holding].
  destruct Hshape as [[Htip Harts] | [Htip (found & top & Htop & Harts)]].
  - exists b, 2. split; [apply lookup_insert_eq|]. split; [reflexivity|].
    split; [now left|]. rewrite Harts. split; [reflexivity | lia].
  - destruct (top_five_len found top Htop) as (n & Hlen & Hn).
    exists b, n. split; [apply lookup_insert_eq|]. split; [reflexivity|].
    split; [now right|]. rewrite Harts. auto.
Qed.

Lemma written_bundle_bounded_witness :
  fst (main seven_world sound_fs boot) = Ok tt /\
  exists b,
    files (snd (main seven_world sound_fs boot)) !! OUTPUT_FILE =
    Some (Dumped b) /\
    py_len (articles b) = Some 5.
Proof.
  assert (Hok : fst (main seven_world sound_fs boot) = Ok tt)
    by (vm_compute; reflexivity).
  split; [exact Hok|].
  destruct (written_bundle_bounded seven_world sound_fs boot Hok)
    as (b & n & Hfile & Hb & _).
  exists b. split; [exact Hfile|].
  revert Hb. vm_compute. now intros [= <-].
Defined.

(** ** Runs on any platform *)

Lemma at_request_refl w s : py_not (API_KEY w) = true -> at_request w s s.
Proof.
  intros Hnot. unfold at_request, urls_of. rewrite Hnot, app_nil_r. auto.
Qed.

Lemma at_request_sent w key s :
  API_KEY w = Some key -> key <> [] ->
  at_request w s (requested (url_for key) s).
Proof.
  intros Hk Hkey. unfold at_request, urls_of.
  rewrite Hk, (py_not_key key Hkey). cbn [format_key]. auto.
Qed.

Lemma on_error_ending pf w s s0 e :
  at_request w s s0 -> ending pf w s (on_error pf w e s0).
Proof.
  intros Hs0. rewrite on_error_run.
  destruct (stdout_error pf (WithExc (u "Error fetching news: ") e)) eqn:Hout.
  - eapply Escaped; eauto using diagnostic_fetch_error.
  - eapply Fallback; eauto using diagnostic_fetch_error.
Qed.

Lemma on_error_late_ending pf w s s0 e :
  at_request w s s0 -> ending pf w s (on_error pf w e (ticked s0)).
Proof.
  intros Hs0. rewrite on_error_run.
  destruct (stdout_error pf (WithExc (u "Error fetching news: ") e)) eqn:Hout.
  - eapply LateEscaped; eauto using diagnostic_fetch_error.
  - eapply LateFallback; eauto using diagnostic_fetch_error.
Qed.

(** Every run ends in one of the six ways. *)
Lemma fetch_on_ending pf w s : ending pf w s (fetch_health_news_on pf w s).
Proof.
  destruct (py_not (API_KEY w)) eqn:Hnot.
  - rewrite (fetch_on_without_key pf w s Hnot).
    destruct (stdout_error pf _) eqn:Hout.
    + eapply Escaped; eauto using diagnostic_no_key, at_request_refl.
    + eapply Fallback; eauto using diagnostic_no_key, at_request_refl.
  - destruct (py_not_false_inv _ Hnot) as (key & Hk & Hkey).
    pose proof (at_request_sent w key s Hk Hkey) as Hs0.
    rewrite (fetch_on_with_key pf w key s Hk Hkey).
    destruct (never_answers pf (url_for key)); [now apply Stalled|].
    destruct (requests_get w (url_for key)) as [e | r];
      [now apply on_error_ending|].
    destruct (json r) as [e | data]; [now apply on_error_ending|].
    destruct data as [ | | | | | | d].
    1-6: rewrite after_parse_on_not_dict by discriminate;
      now apply on_error_ending.
    destruct (py_eq_str (default PNone (d !! u "status")) (u "ok")) eqn:Hst.
    + apply py_eq_str_true in Hst.
      assert (Hst' : d !! u "status" = Some (PStr (u "ok"))).
      { destruct (d !! u "status"); cbn [default from_option id] in Hst;
          [congruence | discriminate]. }
      rewrite (after_parse_on_ok pf w d _ Hst').
      destruct Hs0 as (Hout & Hreq & Hreads).
      destruct (default (PList []) (d !! u "articles")) as [ | | | | t | l | ] eqn:Hv.
      1-4, 7: now apply on_error_late_ending.
      * eapply (Live pf w s _ _ (PStr t)); cbn [tip updated_at articles];
          first [reflexivity | now rewrite Hreads | now split].
      * eapply (Live pf w s _ _ (PList l)); cbn [tip updated_at articles];
          first [reflexivity | now rewrite Hreads | now split].
    + rewrite after_parse_on_not_ok.
      * destruct (stdout_error pf (WithValue (u "API Error: ") (PDict d)))
          eqn:Hout; [now apply on_error_ending|].
        eapply Fallback; eauto using diagnostic_api_error.
      * intros Hst'. rewrite Hst' in Hst. cbn [default from_option id] in Hst.
        rewrite (proj2 (py_eq_str_true _ _) eq_refl) in Hst. discriminate.
Qed.

(** C4, as stated, fails: the request raises an exception whose message is
    not ASCII, standard output is ASCII, and the [print] of the handler,
    which no [try] guards, raises in its turn: the function returns no
    bundle, an exception leaves it. *)
Lemma handler_print_can_raise :
  requests_get localized_error_world (url_for (u "k3y")) =
  inl (LibraryError (u "تعذر الاتصال بالخادم")) /\
  fetch_health_news_on ascii_stdout localized_error_world fresh =
  (Raise (LibraryError (u "UnicodeEncodeError")),
   requested (url_for (u "k3y")) fresh) /\
  forall b,
    value (fetch_health_news_on ascii_stdout localized_error_world) fresh
    <> Ok b.
Proof.
  split; [reflexivity|].
  assert (Hrun :
    fetch_health_news_on ascii_stdout localized_error_world fresh =
    (Raise (LibraryError (u "UnicodeEncodeError")),
     requested (url_for (u "k3y")) fresh)) by (vm_compute; reflexivity).
  split; [exact Hrun|].
  intros b. unfold value. rewrite Hrun. discriminate.
Qed.

(** C4, amended: when [requests.get] raises, or the [json()] of its
    response does, the exception is caught and the handler prints its
    diagnostic; if that [print] succeeds, the bundle of
    [generate_fallback_data] is returned, and if it raises, what it raises
    leaves the function. *)
Theorem raised_exception_handled pf w key s e :
  API_KEY w = Some key ->
  key <> [] ->
  never_answers pf (url_for key) = false ->
  requests_get w (url_for key) = inl e \/
  (exists r, requests_get w (url_for key) = inr r /\ json r = inl e) ->
  (stdout_error pf (WithExc (u "Error fetching news: ") e) = None ->
   fetch_health_news_on pf w s =
   generate_fallback_data w
     (printed (WithExc (u "Error fetching news: ") e)
        (requested (url_for key) s)) /\
   exists b,
     value (fetch_health_news_on pf w) s = Ok b /\
     value (generate_fallback_data w) s = Ok b) /\
  (forall e',
     stdout_error pf (WithExc (u "Error fetching news: ") e) = Some e' ->
     fetch_health_news_on pf w s = (Raise e', requested (url_for key) s)).
Proof.
  intros Hk Hkey Hback Hraised.
  assert (Hrun : fetch_health_news_on pf w s =
                 on_error pf w e (requested (url_for key) s)).
  { rewrite (fetch_on_with_key pf w key s Hk Hkey), Hback.
    destruct Hraised as [-> | (r & -> & ->)]; reflexivity. }
  rewrite Hrun, on_error_run. split.
  - intros Hout. rewrite Hout. split; [reflexivity|].
    unfold value at 1. rewrite Hrun, on_error_run, Hout.
    set (s1 := printed _ _).
    destruct (generate_fallback_data_total w s1) as (b & Hb & _).
    exists b. rewrite Hb. split; [reflexivity|].
    rewrite (generate_fallback_data_reading w s s1) by reflexivity.
    unfold value. now rewrite Hb.
  - intros e' Hout. now rewrite Hout.
Qed.

Lemma raised_exception_handled_witness :
  (exists b,
     value (fetch_health_news_on ascii_stdout unreachable_world) fresh = Ok b /\
     value (generate_fallback_data unreachable_world) fresh = Ok b) /\
  (exists b,
     value (fetch_health_news_on plain garbled_world) fresh = Ok b /\
     value (generate_fallback_data garbled_world) fresh = Ok b).
Proof.
  split.
  - destruct (raised_exception_handled ascii_stdout unreachable_world (u "k3y")
                fresh (LibraryError (u "ConnectionError"))
                (key_of_keyed _) k3y_not_empty eq_refl (or_introl eq_refl))
      as (Hok & _).
    apply Hok. vm_compute. reflexivity.
  - destruct (raised_exception_handled plain garbled_world (u "k3y")
                fresh (LibraryError (u "JSONDecodeError"))
                (key_of_keyed _) k3y_not_empty eq_refl
                (or_intror (ex_intro _ _ (conj eq_refl eq_refl))))
      as (Hok & _).
    apply Hok. reflexivity.
Defined.

(** What a run that returned a bundle went through. *)
Lemma ending_returned pf w s b s' :
  ending pf w s (Ok b, s') ->
  exists s0,
    at_request w s s0 /\
    ((exists l, diagnostic l = true /\ stdout_error pf l = None /\
        s' = ticked (printed l s0) /\
        tip b = water_tip /\ articles b = fallback_articles /\
        updated_at b = clock w (clock_reads s)) \/
     (exists l, diagnostic l = true /\ stdout_error pf l = None /\
        s' = ticked (printed l (ticked s0)) /\
        tip b = water_tip /\ articles b = fallback_articles /\
        updated_at b = clock w (S (clock_reads s))) \/
     (s' = ticked s0 /\ tip b = walking_tip /\
      updated_at b = clock w (clock_reads s) /\
      exists found top, top_five found = Some top /\ articles b = top)).
Proof.
  intros Hend. remember (Ok b, s') as out eqn:Hrun.
  destruct Hend as
    [l s0 Hl Hout Hs0 | l s0 Hl Hout Hs0
    | b0 s0 found top Htip Hup Htop Harts Hs0
    | l e s0 Hl Htry Hout Hs0 | l e s0 Hl Htry Hout Hs0 | s0 Hs0];
    try discriminate Hrun.
  - exists s0. split; [exact Hs0|]. left. exists l.
    destruct (generate_fallback_data_spec w (printed l s0))
      as (b' & Hb' & Hup & Htip & Harts).
    rewrite Hb' in Hrun. injection Hrun as -> ->.
    destruct Hs0 as (_ & _ & Hreads).
    cbn [printed clock_reads] in Hup. rewrite Hreads in Hup. auto 10.
  - exists s0. split; [exact Hs0|]. right. left. exists l.
    destruct (generate_fallback_data_spec w (printed l (ticked s0)))
      as (b' & Hb' & Hup & Htip & Harts).
    rewrite Hb' in Hrun. injection Hrun as -> ->.
    destruct Hs0 as (_ & _ & Hreads).
    cbn [printed ticked clock_reads] in Hup. rewrite Hreads in Hup. auto 10.
  - injection Hrun as -> <-.
    exists s0. split; [exact Hs0|]. right. right. eauto 10.
Qed.


(** X2: whenever a bundle is returned, on whatever platform, its
    [updated_at] is the last reading of the clock the run took, and the
    run took one reading, or two. *)
Theorem updated_at_is_last_reading pf w s b :
  value (fetch_health_news_on pf w) s = Ok b ->
  clock_reads s < clock_reads (snd (fetch_health_news_on pf w s)) /\
  clock_reads (snd (fetch_health_news_on pf w s)) <= clock_reads s + 2 /\
  updated_at b =
  clock w (clock_reads (snd (fetch_health_news_on pf w s)) - 1).
Proof.
  unfold value. intros Hb.
  pose proof (fetch_on_ending pf w s) as Hend.
  destruct (fetch_health_news_on pf w s) as [r s']. cbn [fst snd] in *.
  subst r.
  destruct (ending_returned pf w s b s' Hend)
    as (s0 & (_ & _ & Hreads) &
        [(l & _ & _ & -> & _ & _ & Hup) | [(l & _ & _ & -> & _ & _ & Hup)
        | (-> & _ & Hup & _)]]);
    cbn [ticked printed clock_reads]; rewrite Hup, Hreads, Nat.sub_1_r;
    cbn [Nat.pred]; repeat split; lia.
Qed.

Lemma updated_at_is_last_reading_witness :
  value (fetch_health_news_on py312 dict_articles_world) fresh =
  Ok {| updated_at := sample_clock 1;
        tip := water_tip;
        articles := fallback_articles |} /\
  clock_reads (snd (fetch_health_news_on py312 dict_articles_world fresh)) = 2.
Proof.
  assert (Hb : value (fetch_health_news_on py312 dict_articles_world) fresh =
               Ok {| updated_at := sample_clock 1;
                     tip := water_tip;
                     articles := fallback_articles |})
    by (vm_compute; reflexivity).
  split; [exact Hb|].
  destruct (updated_at_is_last_reading py312 dict_articles_world fresh _ Hb)
    as (Hlow & Hhigh & Hup).
  vm_compute. reflexivity.
Defined.





Section KeyedOn.

Context (pf : platform) (w : world) (key : str).
Hypothesis Hk : API_KEY w = Some key.
Hypothesis Hkey : key <> [].
Hypothesis Hback : never_answers pf (url_for key) = false.

Lemma fetch_on_parsed s r data :
  requests_get w (url_for key) = inr r ->
  json r = inr data ->
  fetch_health_news_on pf w s =
  after_parse_on pf w data (requested (url_for key) s).
Proof.
  intros Hget Hjson.
  now rewrite (fetch_on_with_key pf w key s Hk Hkey), Hback, Hget, Hjson.
Qed.

(** X5: a status of ["ok"] does not save a response whose [articles]
    cannot be sliced.  The slice raises after the clock was read: a
    [TypeError] on [null], a number or a boolean; on an object a
    [TypeError] too, or, where slices are hashable (Python 3.12), a
    [KeyError].  The handler reports it and, its [print] succeeding, the
    fallback bundle is returned, stamped with the second reading. *)
Theorem unsliceable_articles_fallback s r d :
  requests_get w (url_for key) = inr r ->
  json r = inr (PDict d) ->
  d !! u "status" = Some (PStr (u "ok")) ->
  sliceable (default (PList []) (d !! u "articles")) = false ->
  stdout_error pf
    (WithExc (u "Error fetching news: ")
       (slice_error pf (default (PList []) (d !! u "articles")))) = None ->
  fetch_health_news_on pf w s =
  generate_fallback_data w
    (printed
       (WithExc (u "Error fetching news: ")
          (slice_error pf (default (PList []) (d !! u "articles"))))
       (ticked (requested (url_for key) s))) /\
  slice_error pf (default (PList []) (d !! u "articles")) =
    match default (PList []) (d !! u "articles") with
    | PDict _ => if slices_hashable pf then KeyError else TypeError
    | _ => TypeError
    end /\
  exists b,
    value (fetch_health_news_on pf w) s = Ok b /\
    tip b = water_tip /\
    articles b = fallback_articles /\
    updated_at b = clock w (S (clock_reads s)).
Proof.
  intros Hget Hjson Hst Hsl Hout.
  assert (Hrun : fetch_health_news_on pf w s =
    generate_fallback_data w
      (printed
         (WithExc (u "Error fetching news: ")
            (slice_error pf (default (PList []) (d !! u "articles"))))
         (ticked (requested (url_for key) s)))).
  { rewrite (fetch_on_parsed s r (PDict d) Hget Hjson).
    rewrite (after_parse_on_ok pf w d _ Hst).
    destruct (default (PList []) (d !! u "articles")) eqn:Hv;
      try discriminate Hsl; rewrite on_error_run, Hout; reflexivity. }
  split; [exact Hrun|]. split; [reflexivity|].
  unfold value. rewrite Hrun. set (s1 := printed _ _).
  destruct (generate_fallback_data_spec w s1) as (b & -> & Hup & Htip & Harts).
  exists b. repeat (split; [first [assumption | reflexivity]|]). exact Hup.
Qed.

(** X16: the report of an upstream error is printed inside the [try]: when
    that [print] raises, its exception is handled like any other, and the
    fallback bundle is returned after the handler's own report, provided
    this one can be printed. *)
Theorem api_error_print_failure_handled s r d e :
  requests_get w (url_for key) = inr r ->
  json r = inr (PDict d) ->
  d !! u "status" <> Some (PStr (u "ok")) ->
  stdout_error pf (WithValue (u "API Error: ") (PDict d)) = Some e ->
  stdout_error pf (WithExc (u "Error fetching news: ") e) = None ->
  fetch_health_news_on pf w s =
  generate_fallback_data w
    (printed (WithExc (u "Error fetching news: ") e)
       (requested (url_for key) s)) /\
  exists b,
    value (fetch_health_news_on pf w) s = Ok b /\
    value (generate_fallback_data w) s = Ok b.
Proof.
  intros Hget Hjson Hst Hreport Hout.
  assert (Hrun : fetch_health_news_on pf w s =
    generate_fallback_data w
      (printed (WithExc (u "Error fetching news: ") e)
         (requested (url_for key) s))).
  { rewrite (fetch_on_parsed s r (PDict d) Hget Hjson).
    rewrite (after_parse_on_not_ok pf w d _ Hst), Hreport.
    now rewrite on_error_run, Hout. }
  split; [exact Hrun|]. unfold value at 1. rewrite Hrun.
  set (s1 := printed _ _).
  destruct (generate_fallback_data_total w s1) as (b & Hb & _).
  exists b. rewrite Hb. split; [reflexivity|].
  rewrite (generate_fallback_data_reading w s s1) by reflexivity.
  unfold value. now rewrite Hb.
Qed.

End KeyedOn.

Lemma unsliceable_articles_fallback_witness :
  (exists b,
     value (fetch_health_news_on plain null_articles_world) fresh = Ok b /\
     tip b = water_tip /\
     updated_at b = sample_clock 1) /\
  fetch_health_news_on py312 dict_articles_world fresh =
  generate_fallback_data dict_articles_world
    (printed (WithExc (u "Error fetching news: ") KeyError)
       (ticked (requested (url_for (u "k3y")) fresh))).
Proof.
  split.
  - destruct (unsliceable_articles_fallback plain null_articles_world (u "k3y")
                (key_of_keyed _) k3y_not_empty eq_refl fresh
                {| json := inr (ok_body PNone) |}
                (<[u "status" := PStr (u "ok")]> (<[u "articles" := PNone]> ∅))
                eq_refl eq_refl
                ltac:(vm_compute; reflexivity) ltac:(vm_compute; reflexivity)
                eq_refl)
      as (_ & _ & b & Hb & Htip & _ & Hup).
    exists b. split; [exact Hb|]. split; [exact Htip | exact Hup].
  - destruct (unsliceable_articles_fallback py312 dict_articles_world (u "k3y")
                (key_of_keyed _) k3y_not_empty eq_refl fresh
                {| json := inr (ok_body (PDict ∅)) |}
                (<[u "status" := PStr (u "ok")]>
                   (<[u "articles" := PDict ∅]> ∅))
                eq_refl eq_refl
                ltac:(vm_compute; reflexivity) ltac:(vm_compute; reflexivity)
                eq_refl)
      as (Hrun & Herr & _).
    rewrite Hrun.
    assert (Hv : default (PList [])
                   ((<[u "status" := PStr (u "ok")]>
                       (<[u "articles" := PDict ∅]> ∅) : gmap str pyval)
                      !! u "articles") = PDict ∅)
      by (vm_compute; reflexivity).
    rewrite Hv. reflexivity.
Defined.

Lemma api_error_print_failure_handled_witness :
  exists b,
    value (fetch_health_news_on ascii_stdout arabic_error_world) fresh = Ok b /\
    value (generate_fallback_data arabic_error_world) fresh = Ok b.
Proof.
  refine (proj2 (api_error_print_failure_handled ascii_stdout
                   arabic_error_world (u "k3y")
                   (key_of_keyed _) k3y_not_empty eq_refl fresh
                   {| json := inr (PDict (<[u "status" := PStr (u "error")]>
                        (<[u "message" := PStr (u "المفتاح غير صالح")]> ∅))) |}
                   (<[u "status" := PStr (u "error")]>
                        (<[u "message" := PStr (u "المفتاح غير صالح")]> ∅))
                   (LibraryError (u "UnicodeEncodeError"))
                   eq_refl eq_refl _ _ _)).
  - vm_compute. discriminate.
  - vm_compute. reflexivity.
  - vm_compute. reflexivity.
Defined.

(** ** The main block on any platform *)


(** X8: when [fetch_health_news] returns a bundle and neither
    [os.makedirs], nor [open], nor the dump of that bundle, nor the last
    [print] raises, the script completes, whatever the file held before:
    the file then holds the dump of that very bundle, and the success line
    comes after everything [fetch_health_news] printed. *)
Theorem main_completes pf w fs p b :
  value (fetch_health_news_on pf w) (console p) = Ok b ->
  os_makedirs fs (u "data") = None ->
  open_w fs OUTPUT_FILE = None ->
  json_dump fs b = None ->
  stdout_error pf success_line = None ->
  main_on pf w fs p =
  (Ok tt,
   {| console :=
        printed success_line (snd (fetch_health_news_on pf w (console p)));
      files := <[OUTPUT_FILE := Dumped b]> (files p);
      dirs_ensured := dirs_ensured p ++ [u "data"] |}).
Proof.
  unfold value. intros Hb Hdir Hopen Hdump Hout.
  destruct (fetch_health_news_on pf w (console p)) as [r s'] eqn:Hfetch.
  cbn [fst snd] in *. subst r.
  rewrite (main_on_run pf w fs p b s' Hfetch), Hdir, Hopen, Hdump, Hout.
  reflexivity.
Qed.

Lemma main_completes_witness :
  value (fetch_health_news_on ascii_stdout unreachable_world) fresh =
  Ok {| updated_at := sample_clock 0;
        tip := water_tip;
        articles := fallback_articles |} /\
  fst (main_on ascii_stdout unreachable_world sound_fs boot) = Ok tt /\
  files (snd (main_on ascii_stdout unreachable_world sound_fs boot))
    !! OUTPUT_FILE =
  Some (Dumped {| updated_at := sample_clock 0;
                  tip := water_tip;
                  articles := fallback_articles |}).
Proof.
  assert (Hb :
    value (fetch_health_news_on ascii_stdout unreachable_world) (console boot) =
    Ok {| updated_at := sample_clock 0;
          tip := water_tip;
          articles := fallback_articles |})
    by (vm_compute; reflexivity).
  split; [exact Hb|].
  rewrite (main_completes ascii_stdout unreachable_world sound_fs boot _ Hb
             eq_refl eq_refl eq_refl ltac:(vm_compute; reflexivity)).
  cbn [fst snd files]. split; [reflexivity | apply lookup_insert_eq].
Defined.



(** ** Reading the file back *)

(** C9, as stated, fails: the request fails, the fallback bundle is in
    memory, the disk is full; the dump raises, the script ends there, and
    the file, cut short, does not load. *)
Lemma failed_dump_breaks_round_trip :
  value (fetch_health_news unreachable_world) (console boot) =
  Ok {| updated_at := sample_clock 0;
        tip := water_tip;
        articles := fallback_articles |} /\
  fst (main unreachable_world full_disk_fs boot) =
  Raise (LibraryError (u "OSError")) /\
  read_back (snd (main unreachable_world full_disk_fs boot)) =
  inl (LibraryError (u "JSONDecodeError")).
Proof. split; [|split]; vm_compute; reflexivity. Qed.

(** C9, amended: for every run in which [fetch_health_news] returns a
    bundle and neither [os.makedirs], nor [open], nor the dump of that
    bundle raises, loading the output file afterwards gives back the
    bundle that was in memory, field for field; this whether or not the
    last [print] succeeds. *)
Theorem dumped_bundle_reads_back pf w fs p b :
  value (fetch_health_news_on pf w) (console p) = Ok b ->
  os_makedirs fs (u "data") = None ->
  open_w fs OUTPUT_FILE = None ->
  json_dump fs b = None ->
  files (snd (main_on pf w fs p)) !! OUTPUT_FILE = Some (Dumped b) /\
  read_back (snd (main_on pf w fs p)) = inr b.
Proof.
  unfold value. intros Hb Hdir Hopen Hdump.
  destruct (fetch_health_news_on pf w (console p)) as [r s'] eqn:Hfetch.
  cbn [fst] in Hb. subst r.
  rewrite (main_on_run pf w fs p b s' Hfetch), Hdir, Hopen, Hdump.
  assert (Hfile : forall q,
    files (holding (Dumped b) q) !! OUTPUT_FILE = Some (Dumped b)).
  { intros q. cbn [holding files]. apply lookup_insert_eq. }
  unfold read_back.
  destruct (stdout_error pf success_line); cbn [snd];
    [|change (files (with_console ?s ?q)) with (files q)];
    rewrite Hfile; auto.
Qed.

Lemma dumped_bundle_reads_back_witness :
  value (fetch_health_news_on ascii_stdout seven_world) (console boot) =
  Ok {| updated_at := sample_clock 0;
        tip := walking_tip;
        articles := PList (take 5 seven_headlines) |} /\
  read_back (snd (main_on ascii_stdout seven_world sound_fs boot)) =
  inr {| updated_at := sample_clock 0;
         tip := walking_tip;
         articles := PList (take 5 seven_headlines) |}.
Proof.
  assert (Hb :
    value (fetch_health_news_on ascii_stdout seven_world) (console boot) =
    Ok {| updated_at := sample_clock 0;
          tip := walking_tip;
          articles := PList (take 5 seven_headlines) |})
    by (vm_compute; reflexivity).
  split; [exact Hb|].
  exact (proj2 (dumped_bundle_reads_back ascii_stdout seven_world sound_fs boot
                  _ Hb eq_refl eq_refl eq_refl)).
Defined.
